(** * pgAdmin pod assembly and its supervisor script

    A shallow embedding of [internal/controller/standalone_pgadmin/pod.go]:

    - [Projection]: the Go function [podConfigFiles], which builds the list
      of volume projections of the configuration volume;
    - [Monitor]: the Bash routine that [startupScript] assembles
      ([startScript] followed by [reloadScript], run as the shell function
      [monitor] under [bash -ceu]), given as an executable transition
      function over the part of the operating system the routine can
      observe: a clock, the modification time of the watched file and the
      process table. *)

From Stdlib Require Import ZArith Lia.
From stdpp Require Import base gmap list strings pretty.

(** ** The configuration volume *)

Module Projection.

(** The Kubernetes API types the function reads or builds, field by field;
    a Go pointer is an [option]. *)
Record LocalObjectReference := mkRef { Name : string }.

Record KeyToPath := mkKeyToPath { Key : string; Path : string }.

Record ConfigMapProjection := mkConfigMapProjection {
  cmLocalObjectReference : LocalObjectReference;
  cmItems : list KeyToPath;
  cmOptional : option bool
}.

Record SecretProjection := mkSecretProjection {
  secLocalObjectReference : LocalObjectReference;
  secItems : list KeyToPath;
  secOptional : option bool
}.

Record SecretKeySelector := mkSecretKeySelector {
  selLocalObjectReference : LocalObjectReference;
  selKey : string;
  selOptional : option bool
}.

(** A projection names one source; the function only ever fills [Secret]
    or [ConfigMap] and copies whatever the user listed. *)
Record VolumeProjection := mkVolumeProjection {
  Secret : option SecretProjection;
  ConfigMap : option ConfigMapProjection
}.

Record ConfigMapObject := mkConfigMap { cmName : string }.

Record PGAdminConfiguration := mkPGAdminConfiguration {
  Files : list VolumeProjection;
  LDAPBindPassword : option SecretKeySelector
}.

Record PGAdminSpec := mkPGAdminSpec { Config : PGAdminConfiguration }.

Record PGAdmin := mkPGAdmin {
  pgName : string;
  pgNamespace : string;
  Spec : PGAdminSpec
}.

Definition configMountPath : string := "/etc/pgadmin/conf.d".
Definition ldapFilePath : string := "~postgres-operator/ldap-bind-password".

Section Keys.

(** The two keys of the operator's ConfigMap are constants of the package
    declared outside this file. *)
Variables settingsConfigMapKey settingsClusterMapKey : string.

Definition configFilePath : string := "~postgres-operator/" +:+ settingsConfigMapKey.
Definition clusterFilePath : string := "~postgres-operator/" +:+ settingsClusterMapKey.

(** The projection of the operator's own ConfigMap. *)
Definition configMapProjection (cm : ConfigMapObject) : VolumeProjection :=
  mkVolumeProjection None
    (Some (mkConfigMapProjection (mkRef (cmName cm))
             [mkKeyToPath settingsConfigMapKey configFilePath;
              mkKeyToPath settingsClusterMapKey clusterFilePath]
             None)).

(** The projection of the Secret that holds the LDAP bind password. *)
Definition ldapProjection (sel : SecretKeySelector) : VolumeProjection :=
  mkVolumeProjection
    (Some (mkSecretProjection (selLocalObjectReference sel)
             [mkKeyToPath (selKey sel) ldapFilePath]
             (selOptional sel)))
    None.

(** [podConfigFiles]. The ConfigMap comes by pointer and its name is read
    without a nil check, so a nil pointer panics: [None]. *)
Definition podConfigFiles (configmap : option ConfigMapObject) (pgadmin : PGAdmin)
  : option (list VolumeProjection) :=
  match configmap with
  | None => None
  | Some cm =>
      let config := (app [] (Files (Config (Spec pgadmin)))) ++ [configMapProjection cm] in
      match LDAPBindPassword (Config (Spec pgadmin)) with
      | Some sel => Some (config ++ [ldapProjection sel])
      | None => Some config
      end
  end.

End Keys.

End Projection.

(** ** The system configuration written by the init container *)

Module Startup.

Import Projection.

(** What [json.load] can return. *)
#[warnings="-register-all"]
Inductive Json :=
| JNull
| JBool (b : bool)
| JNumber (literal : string)
| JString (s : string)
| JArray (l : list Json)
| JObject (items : list (string * Json)).

(** [re.compile(r'[A-Z_0-9]+').fullmatch(k)]. *)
Definition conf_char (c : Ascii.ascii) : bool :=
  let n := Ascii.nat_of_ascii c in
  ((65 <=? n) && (n <=? 90)) || (n =? 95) || ((48 <=? n) && (n <=? 57)).

Definition fullmatch (k : string) : bool :=
  match k with
  | EmptyString => false
  | _ => forallb conf_char (String.list_ascii_of_string k)
  end.

Definition ldapPasswordAbsolutePath : string :=
  configMountPath +:+ "/" +:+ ldapFilePath.

Section Script.

(** The settings key is a constant of the package declared elsewhere;
    [json.load] and the result of the [glob] come from Python. *)
Variable settingsConfigMapKey : string.
Variable json_load : string → option Json.
Variable default_binary_paths : Json.

(** [globals().update({k: v for k, v in _data.items() if _conf.fullmatch(k)})]. *)
Definition update_globals (items : list (string * Json)) (g : gmap string Json)
  : gmap string Json :=
  fold_left (λ g kv, if fullmatch kv.1 then <[kv.1 := kv.2]> g else g) items g.

(** The script [configSystem] that [startupCommand] writes to
    [config_system.py], run over the files of the configuration volume: the
    settings it defines, that is the names made of capitals, digits and
    underscores (the modules it imports and its temporaries [_f], [_conf]
    and [_data] are not tracked), or [None] when [open] or [json.load]
    raises. *)
Definition configSystem (files : gmap string string) : option (gmap string Json) :=
  let g0 : gmap string Json := {[ "DEFAULT_BINARY_PATHS" := default_binary_paths ]} in
  match files !! (configMountPath +:+ "/" +:+ configFilePath settingsConfigMapKey) with
  | None => None
  | Some text =>
      match json_load text with
      | None => None
      | Some data =>
          let g1 := match data with
                    | JObject items => update_globals items g0
                    | _ => g0
                    end in
          Some match files !! ldapPasswordAbsolutePath with
               | Some password => <["LDAP_BIND_PASSWORD" := JString password]> g1
               | None => g1
               end
      end
  end.

End Script.

End Startup.

(** ** The supervisor script *)

Module Monitor.

Local Open Scope Z_scope.

(** Process ids are what [$!] yields and what names a [/proc/<pid>]
    directory. *)
Definition pid := positive.

(** What the script can see of its surroundings: the file-system clock, the
    modification time of [${cluster_file}] ([None] when the file does not
    exist) and the ids that have a [/proc/<pid>] directory. *)
Record World := mkWorld {
  clock : Z;
  cluster_file : option Z;
  procs : gset pid
}.

(** Things that happen to the world while the script is blocked in
    [read -t 5] or in a child command. Time only moves forward; a write
    stamps the file with the current clock reading; [Replace] swaps the
    file for one carrying any stamp, or removes it; a process may die. *)
Inductive EnvEvent :=
| Elapse (d : positive)
| WriteFile
| Replace (m : option Z)
| Kill (p : pid).

Definition env_step (w : World) (e : EnvEvent) : World :=
  match e with
  | Elapse d => mkWorld (clock w + Z.pos d) (cluster_file w) (procs w)
  | WriteFile => mkWorld (clock w) (Some (clock w)) (procs w)
  | Replace m => mkWorld (clock w) m (procs w)
  | Kill p => mkWorld (clock w) (cluster_file w) (procs w ∖ {[p]})
  end.

Definition env_steps (es : list EnvEvent) (w : World) : World :=
  fold_left env_step es w.

(** The variables of the running loop: the modification time of the pipe
    behind [/proc/self/fd/${fd}], fixed when the descriptor is opened, and
    the content of [$PGADMIN4_PIDFILE]. *)
Record State := mkState {
  env : World;
  fd_mtime : Z;
  pidfile : pid
}.

(** The commands the script executes, in order, with what they returned. *)
Inductive Action :=
| Echo (msg : string)
| Setup (status : Z)
| Spawn (p : pid)
| WritePid (p : pid)
| LoadServers (status : Z)
| OpenFd (t : Z)
| TestNewer (newer : bool)
| Stat (t : option Z)
| TestProc (p : pid) (alive : bool).

(** Under [bash -e] a failing simple command ends the script with that
    command's status. *)
Inductive Outcome :=
| Running (s : State)
| Exited (status : Z) (w : World).

(** [[ file -nt fd ]]: the file exists and is strictly newer than the open
    descriptor. *)
Definition newer_than (file : option Z) (fd : Z) : bool :=
  match file with
  | Some t => bool_decide (fd < t)
  | None => false
  end.

(** [pgadmin4 &]: a new process appears under the id the system chose. *)
Definition spawn (p : pid) (w : World) : World :=
  mkWorld (clock w) (cluster_file w) ({[p]} ∪ procs w).

(** [[ -d /proc/<pid> ]]. *)
Definition alive (p : pid) (w : World) : bool := bool_decide (p ∈ procs w).

(** What the system supplies to the start-up sequence: the exit status of
    the two [setup.py] runs, what happens meanwhile, and the id given to the
    first [pgadmin4]. *)
Record BootEnv := mkBootEnv {
  setup_status : Z;
  during_setup : list EnvEvent;
  boot_pid : pid;
  boot_load_status : Z;
  during_boot_load : list EnvEvent
}.

(** How the start-up sequence ends: pgAdmin runs under the recorded id, or
    a command failed and [bash -e] ended the script. *)
Inductive Booted :=
| Started (w : World) (p : pid)
| Aborted (status : Z) (w : World).

(** [startScript]: run the setup, start pgAdmin in the background, record
    its id, load the servers. None of the commands is a condition, so the
    first one that fails ends the script. *)
Definition startScript (o : BootEnv) (w : World) : list Action * Booted :=
  let w1 := env_steps (during_setup o) w in
  if setup_status o =? 0 then
    let w2 := env_steps (during_boot_load o) (spawn (boot_pid o) w1) in
    ([Echo "Running pgAdmin4 Setup"; Setup 0;
      Echo "Starting pgAdmin4"; Spawn (boot_pid o); WritePid (boot_pid o);
      LoadServers (boot_load_status o)],
     if boot_load_status o =? 0 then Started w2 (boot_pid o)
     else Aborted (boot_load_status o) w2)
  else
    ([Echo "Running pgAdmin4 Setup"; Setup (setup_status o)],
     Aborted (setup_status o) w1).

(** What the system supplies to one iteration of the loop. *)
Record TickEnv := mkTickEnv {
  during_wait : list EnvEvent;
  load_status : Z;
  during_load : list EnvEvent;
  next_pid : pid
}.

(** The second [if] of the loop body: restart pgAdmin when the recorded id
    has no [/proc] entry. *)
Definition ensure_running (o : TickEnv) (s : State) : list Action * State :=
  if alive (pidfile s) (env s) then ([TestProc (pidfile s) true], s)
  else
    ([TestProc (pidfile s) false; Spawn (next_pid o); WritePid (next_pid o);
      Echo "Restarting pgAdmin4"],
     mkState (spawn (next_pid o) (env s)) (fd_mtime s) (next_pid o)).

(** [read -r -t 5 -u "${fd}" || true]: nothing is ever written to the
    pipe, so the read times out and the body runs; meanwhile the world
    moves. *)
Definition wait (o : TickEnv) (s : State) : State :=
  mkState (env_steps (during_wait o) (env s)) (fd_mtime s) (pidfile s).

(** The first [if] of the loop body. The load command runs only when the
    file is newer than the descriptor; the descriptor is reopened, and the
    file's date printed, only when the load command succeeded. [stat] is
    outside the condition, so its failure ends the script. *)
Definition reload_if_newer (o : TickEnv) (s : State) : list Action * Outcome :=
  if newer_than (cluster_file (env s)) (fd_mtime s) then
    let w := env_steps (during_load o) (env s) in
    if load_status o =? 0 then
      match cluster_file w with
      | Some t =>
          ([TestNewer true; LoadServers 0; OpenFd (clock w); Stat (Some t)],
           Running (mkState w (clock w) (pidfile s)))
      | None =>
          ([TestNewer true; LoadServers 0; OpenFd (clock w); Stat None],
           Exited 1 w)
      end
    else
      ([TestNewer true; LoadServers (load_status o)],
       Running (mkState w (fd_mtime s) (pidfile s)))
  else ([TestNewer false], Running s).

(** One iteration of the [while] loop. *)
Definition tick (o : TickEnv) (s : State) : list Action * Outcome :=
  match reload_if_newer o (wait o s) with
  | (tr, Running s1) =>
      let '(tr', s2) := ensure_running o s1 in (tr ++ tr', Running s2)
  | (tr, Exited st w) => (tr, Exited st w)
  end.

(** The [while] loop, one [TickEnv] per iteration, with the trace of each
    iteration. *)
Fixpoint ticks (os : list TickEnv) (s : State) : list (list Action) * Outcome :=
  match os with
  | [] => ([], Running s)
  | o :: os' =>
      match tick o s with
      | (tr, Running s') =>
          let '(trs, out) := ticks os' s' in (tr :: trs, out)
      | (tr, Exited st w) => ([tr], Exited st w)
      end
  end.

(** [reloadScript]: [exec {fd}<> <(:)] opens the descriptor, whose
    modification time is the clock reading of that moment, then the loop
    runs. *)
Definition reloadScript (os : list TickEnv) (w : World) (p : pid)
  : list Action * Outcome :=
  let '(trs, out) := ticks os (mkState w (clock w) p) in
  (OpenFd (clock w) :: concat trs, out).

(** [monitor]: the start-up sequence followed by the loop. *)
Definition monitor (b : BootEnv) (os : list TickEnv) (w : World)
  : list Action * Outcome :=
  match startScript b w with
  | (tr, Started w' p) =>
      let '(tr', out) := reloadScript os w' p in (tr ++ tr', out)
  | (tr, Aborted st w') => (tr, Exited st w')
  end.

Definition is_load (a : Action) : bool :=
  match a with LoadServers _ => true | _ => false end.

Definition is_open (a : Action) : bool :=
  match a with OpenFd _ => true | _ => false end.

Definition is_stat (a : Action) : bool :=
  match a with Stat _ => true | _ => false end.

Definition is_spawn (a : Action) : bool :=
  match a with Spawn _ => true | _ => false end.

Definition count (f : Action → bool) (tr : list Action) : nat :=
  length (List.filter f tr).

(** The ids of the processes a trace started, oldest first. *)
Definition started (tr : list Action) : list pid :=
  omap (λ a, match a with Spawn p => Some p | _ => None end) tr.

(** Events that leave the watched file alone. *)
Definition keeps_file (e : EnvEvent) : bool :=
  match e with
  | Elapse _ | Kill _ => true
  | WriteFile | Replace _ => false
  end.

(** A state on which the loop has nothing to do: the file is missing or
    not newer than the descriptor, and the recorded process is alive. *)
Definition quiescent (s : State) : bool :=
  negb (newer_than (cluster_file (env s)) (fd_mtime s)) && alive (pidfile s) (env s).

(** Events that keep such a state quiescent: time passing, the death of
    some other process, the file replaced by one that is not newer than the
    descriptor (or removed). *)
Definition quiet_event (s : State) (e : EnvEvent) : bool :=
  match e with
  | Elapse _ => true
  | Kill p => negb (Pos.eqb p (pidfile s))
  | Replace m => negb (newer_than m (fd_mtime s))
  | WriteFile => false
  end.

Definition idle (s : State) (o : TickEnv) : bool :=
  forallb (quiet_event s) (during_wait o).

(** An iteration during which nothing touches the watched file. *)
Definition steady (o : TickEnv) : bool :=
  forallb keeps_file (during_wait o) && forallb keeps_file (during_load o).

(** *** Scenarios

    Concrete runs used to exercise the statements below: pgAdmin runs as
    process 4821, a restart yields process 5102, the descriptor was opened
    at time 10. *)

Definition table : gset pid := {[4821%positive]}.

(** The file is as old as the descriptor and pgAdmin is alive. *)
Definition settled : State := mkState (mkWorld 20 (Some 10) table) 10 4821%positive.

(** The file was rewritten at time 15, after the descriptor was opened. *)
Definition rewritten : State := mkState (mkWorld 20 (Some 15) table) 10 4821%positive.

(** The file is missing and the recorded process is gone. *)
Definition bare : State := mkState (mkWorld 20 None ∅) 10 4821%positive.

(** Five time units pass; the load command, if run, succeeds at once. *)
Definition calm : TickEnv := mkTickEnv [Elapse 5] 0 [] 5102%positive.

(** Five time units pass; the load command, if run, exits with status 1. *)
Definition failing : TickEnv := mkTickEnv [Elapse 5] 1 [] 5102%positive.

(** The load command takes three time units and succeeds. *)
Definition slow : TickEnv := mkTickEnv [Elapse 5] 0 [Elapse 3] 5102%positive.

(** The file is written again, at time 26, while the load command runs;
    the command succeeds one time unit later. *)
Definition overlapped : TickEnv :=
  mkTickEnv [Elapse 5] 0 [Elapse 1; WriteFile; Elapse 1] 5102%positive.

(** A start-up in which both [setup.py] runs succeed. *)
Definition boot : BootEnv := mkBootEnv 0 [Elapse 2] 4821%positive 0 [Elapse 1].

Definition fresh : World := mkWorld 7 (Some 3) ∅.

End Monitor.

(** ** Reading traces of the supervisor script *)

Module Trace.

Import Monitor.

(** The ids a trace wrote to [$PGADMIN4_PIDFILE], oldest first. *)
Definition recorded (tr : list Action) : list pid :=
  omap (λ a, match a with WritePid p => Some p | _ => None end) tr.

(** The clock readings at which a trace opened the descriptor, oldest
    first. *)
Definition opened (tr : list Action) : list Z :=
  omap (λ a, match a with OpenFd t => Some t | _ => None end) tr.

(** Events that leave process [p] alone. *)
Definition spares (p : pid) (e : EnvEvent) : bool :=
  match e with
  | Kill q => negb (Pos.eqb q p)
  | _ => true
  end.

(** The world in which the loop body tests the recorded process: after the
    wait, and after the load command when the file was newer. *)
Definition at_check (o : TickEnv) (s : State) : World :=
  if newer_than (cluster_file (env (wait o s))) (fd_mtime s)
  then env_steps (during_load o) (env (wait o s))
  else env (wait o s).

End Trace.

(** ** The pod *)

Module Pod.

Import Projection.

(** The Kubernetes API types that [pod] fills in. [R] stands for the
    resource requirements, [S] for a container's security context and [O]
    for the fields of a pod specification that [pod] does not touch. *)
Record EmptyDirVolumeSource := mkEmptyDir {
  Medium : string;
  SizeLimit : option Z
}.

Record PersistentVolumeClaimVolumeSource := mkClaimSource {
  ClaimName : string;
  claimReadOnly : bool
}.

Record ProjectedVolumeSource := mkProjected { Sources : list VolumeProjection }.

Record VolumeSource := mkVolumeSource {
  Projected : option ProjectedVolumeSource;
  PersistentVolumeClaim : option PersistentVolumeClaimVolumeSource;
  EmptyDir : option EmptyDirVolumeSource
}.

Record Volume := mkVolume { volumeName : string; volumeSource : VolumeSource }.

Record VolumeMount := mkVolumeMount {
  mountName : string;
  MountPath : string;
  mountReadOnly : bool
}.

Record ContainerPort := mkContainerPort {
  portName : string;
  containerPort : Z;
  Protocol : string
}.

Record EnvVarSource := mkEnvVarSource { SecretKeyRef : option SecretKeySelector }.

Record EnvVar := mkEnvVar {
  envName : string;
  Value : string;
  ValueFrom : option EnvVarSource
}.

Record Container (R S : Type) := mkContainer {
  containerName : string;
  Command : list string;
  Image : string;
  ImagePullPolicy : string;
  Resources : R;
  SecurityContext : option S;
  Ports : list ContainerPort;
  Env : list EnvVar;
  VolumeMounts : list VolumeMount
}.

Arguments mkContainer {R S}.
Arguments containerName {R S}.
Arguments Command {R S}.
Arguments Image {R S}.
Arguments ImagePullPolicy {R S}.
Arguments Resources {R S}.
Arguments SecurityContext {R S}.
Arguments Ports {R S}.
Arguments Env {R S}.
Arguments VolumeMounts {R S}.

Record PodSpec (R S O : Type) := mkPodSpec {
  Volumes : list Volume;
  Containers : list (Container R S);
  InitContainers : list (Container R S);
  Others : O
}.

Arguments mkPodSpec {R S O}.
Arguments Volumes {R S O}.
Arguments Containers {R S O}.
Arguments InitContainers {R S O}.
Arguments Others {R S O}.

Record PersistentVolumeClaim_ := mkClaim { claimName : string }.

(** [corev1.StorageMediumMemory] and [corev1.ProtocolTCP]. *)
Definition StorageMediumMemory : string := "Memory".
Definition ProtocolTCP : string := "TCP".

Definition scriptMountPath : string := "/etc/pgadmin".

(** The double quote character. *)
Definition dq : string := String (Ascii.ascii_of_nat 34) EmptyString.

(** [strings.TrimLeft(s, "\n")]. *)
Fixpoint trimLeftNewlines (s : string) : string :=
  match s with
  | String c rest =>
      if Ascii.eqb c (Ascii.ascii_of_nat 10) then trimLeftNewlines rest else s
  | EmptyString => EmptyString
  end.

(** [fmt.Sprintf] of the pattern [admin@%s.%s.svc] with the name and the
    namespace. *)
Definition adminEmail (pgadmin : PGAdmin) : string :=
  "admin@" +:+ pgName pgadmin +:+ "." +:+ pgNamespace pgadmin +:+ ".svc".

Section Package.

Context {R S O : Type}.

(** Declared elsewhere in the repository: the keys of the ConfigMap and
    the port of the package, the names of [naming], the image lookup of
    [config], the name of the object [naming.StandalonePGAdmin] returns,
    the security context of [initialize]; and the two fields of the
    PGAdmin spec that the record above does not carry. *)
Variables settingsConfigMapKey settingsClusterMapKey : string.
Variable pgAdminPort : Z.
Variables ContainerPGAdmin PortPGAdmin ContainerPGAdminStartup : string.
Variable StandalonePGAdminContainerImage : PGAdmin → string.
Variable StandalonePGAdminName : PGAdmin → string.
Variable RestrictedSecurityContext : S.
Variable SpecImagePullPolicy : PGAdmin → string.
Variable SpecResources : PGAdmin → R.

Definition clusterFile : string :=
  configMountPath +:+ "/" +:+ clusterFilePath settingsClusterMapKey.

(** [loadServerCommand] of [startupScript]. *)
Definition loadServerCommand (pgadmin : PGAdmin) : string :=
  "python3 ${PGADMIN_DIR}/setup.py --load-servers "
  +:+ configMountPath +:+ "/" +:+ clusterFilePath settingsClusterMapKey
  +:+ " --user " +:+ adminEmail pgadmin +:+ " --replace".

Definition startScriptText (pgadmin : PGAdmin) : string :=
  "
PGADMIN_DIR=/usr/local/lib/python3.11/site-packages/pgadmin4

echo " +:+ dq +:+ "Running pgAdmin4 Setup" +:+ dq +:+ "
python3 ${PGADMIN_DIR}/setup.py

echo " +:+ dq +:+ "Starting pgAdmin4" +:+ dq +:+ "
PGADMIN4_PIDFILE=/tmp/pgadmin4.pid
pgadmin4 &
echo $! > $PGADMIN4_PIDFILE

" +:+ loadServerCommand pgadmin +:+ "
".

Definition reloadScriptText (pgadmin : PGAdmin) : string :=
  "
exec {fd}<> <(:)
while read -r -t 5 -u " +:+ dq +:+ "${fd}" +:+ dq +:+ " || true; do
	if [ " +:+ dq +:+ "${cluster_file}" +:+ dq +:+ " -nt " +:+ dq
  +:+ "/proc/self/fd/${fd}" +:+ dq +:+ " ] && " +:+ loadServerCommand pgadmin +:+ "
	then
		exec {fd}>&- && exec {fd}<> <(:)
		stat --format='Loaded shared servers dated %y' " +:+ dq +:+ "${cluster_file}" +:+ dq +:+ "
	fi
	if [ ! -d /proc/$(cat $PGADMIN4_PIDFILE) ]
	then
		pgadmin4 &
		echo $! > $PGADMIN4_PIDFILE
		echo " +:+ dq +:+ "Restarting pgAdmin4" +:+ dq +:+ "
	fi
done
".

(** [startupScript]: the command of the pgAdmin container. A nil PGAdmin is
    dereferenced. *)
Definition startupScript (pgadmin : option PGAdmin) : option (list string) :=
  match pgadmin with
  | None => None
  | Some pg =>
      let wrapper :=
        "monitor() {" +:+ startScriptText pg +:+ reloadScriptText pg
        +:+ "}; export cluster_file=" +:+ dq +:+ "$1" +:+ dq
        +:+ "; export -f monitor; exec -a " +:+ dq +:+ "$0" +:+ dq
        +:+ " bash -ceu monitor" in
      Some ["bash"; "-ceu"; "--"; wrapper; "pgadmin"; clusterFile]
  end.

Definition ldapPasswordAbsolutePath : string :=
  configMountPath +:+ "/" +:+ ldapFilePath.

(** The text of [config_system.py]. *)
Definition configSystemText : string :=
  "
import glob, json, re, os
DEFAULT_BINARY_PATHS = {'pg': sorted([''] + glob.glob('/usr/pgsql-*/bin')).pop()}
with open('" +:+ configMountPath +:+ "/" +:+ configFilePath settingsConfigMapKey +:+ "') as _f:
    _conf, _data = re.compile(r'[A-Z_0-9]+'), json.load(_f)
    if type(_data) is dict:
        globals().update({k: v for k, v in _data.items() if _conf.fullmatch(k)})
if os.path.isfile('" +:+ ldapPasswordAbsolutePath +:+ "'):
    with open('" +:+ ldapPasswordAbsolutePath +:+ "') as _f:
        LDAP_BIND_PASSWORD = _f.read()
".

(** [startupCommand]: the command of the init container. *)
Definition startupCommand : list string :=
  let args := [trimLeftNewlines configSystemText] in
  let script :=
    "mkdir -p /etc/pgadmin/conf.d" +:+ "
" +:+ ("(umask a-w && echo " +:+ dq +:+ "$1" +:+ dq +:+ " > "
        +:+ scriptMountPath +:+ "/config_system.py" +:+ ")") in
  ["bash"; "-ceu"; "--"; script; "startup"] ++ args.

Definition configVolumeName : string := "pgadmin-config".
Definition dataVolumeName : string := "pgadmin-data".
Definition logVolumeName : string := "pgadmin-log".
Definition scriptVolumeName : string := "pgadmin-config-system".
Definition tempVolumeName : string := "tmp".

(** [pod]: the four arguments come by pointer and each is dereferenced
    without a nil check; the result is the pod specification as [pod]
    leaves it. *)
Definition pod (inPGAdmin : option PGAdmin) (inConfigMap : option ConfigMapObject)
    (outPod : option (PodSpec R S O)) (pgAdminVolume : option PersistentVolumeClaim_)
  : option (PodSpec R S O) :=
  pg ← inPGAdmin;
  sources ← podConfigFiles settingsConfigMapKey settingsClusterMapKey inConfigMap pg;
  claim ← pgAdminVolume;
  command ← startupScript inPGAdmin;
  out ← outPod;
  let configVolume :=
    mkVolume configVolumeName
      (mkVolumeSource (Some (mkProjected sources)) None None) in
  let dataVolume :=
    mkVolume dataVolumeName
      (mkVolumeSource None (Some (mkClaimSource (claimName claim) false)) None) in
  let logVolume :=
    mkVolume logVolumeName
      (mkVolumeSource None None (Some (mkEmptyDir StorageMediumMemory None))) in
  let scriptVolume :=
    mkVolume scriptVolumeName
      (mkVolumeSource None None
         (Some (mkEmptyDir StorageMediumMemory (Some (Z.shiftl 32 10))))) in
  let tmpVolume :=
    mkVolume tempVolumeName
      (mkVolumeSource None None (Some (mkEmptyDir StorageMediumMemory None))) in
  let container :=
    mkContainer ContainerPGAdmin command
      (StandalonePGAdminContainerImage pg) (SpecImagePullPolicy pg) (SpecResources pg)
      (Some RestrictedSecurityContext)
      [mkContainerPort PortPGAdmin pgAdminPort ProtocolTCP]
      [mkEnvVar "PGADMIN_SETUP_EMAIL" (adminEmail pg) None;
       mkEnvVar "PGADMIN_SETUP_PASSWORD" EmptyString
         (Some (mkEnvVarSource
            (Some (mkSecretKeySelector (mkRef (StandalonePGAdminName pg))
                     "password" None))));
       mkEnvVar "PGADMIN_LISTEN_PORT" (pretty pgAdminPort) None]
      [mkVolumeMount configVolumeName configMountPath true;
       mkVolumeMount dataVolumeName "/var/lib/pgadmin" false;
       mkVolumeMount logVolumeName "/var/log/pgadmin" false;
       mkVolumeMount scriptVolumeName scriptMountPath true;
       mkVolumeMount tempVolumeName "/tmp" false] in
  let startup :=
    mkContainer ContainerPGAdminStartup startupCommand
      (Image container) (ImagePullPolicy container) (Resources container)
      (Some RestrictedSecurityContext)
      [] []
      [mkVolumeMount scriptVolumeName scriptMountPath false] in
  Some (mkPodSpec
          [configVolume; dataVolume; logVolume; scriptVolume; tmpVolume]
          [container] [startup] (Others out)).

End Package.

End Pod.

(** ** A sample pod *)

Module Sample.

Import Projection Pod.

Definition userFile : VolumeProjection :=
  mkVolumeProjection
    (Some (mkSecretProjection (mkRef "tls") [mkKeyToPath "ca.crt" "certs/ca.crt"] None))
    None.

Definition pgadmin : PGAdmin :=
  mkPGAdmin "admin" "pgo"
    (mkPGAdminSpec
       (mkPGAdminConfiguration [userFile]
          (Some (mkSecretKeySelector (mkRef "ldap") "bind-password" None)))).

Definition configmap : ConfigMapObject := mkConfigMap "admin-standalone-pgadmin".

Definition claim : PersistentVolumeClaim_ := mkClaim "admin-data".

(** A pod specification that already holds a volume and a container. *)
Definition stale : PodSpec unit unit string :=
  mkPodSpec
    [mkVolume "old" (mkVolumeSource None None (Some (mkEmptyDir EmptyString None)))]
    [mkContainer "old" [] "image:0" "Always" tt None [] [] []]
    [] "service-account".

Definition build (out : option (PodSpec unit unit string))
  : option (PodSpec unit unit string) :=
  pod "pgadmin-settings.json" "pgadmin-shared-clusters.json" 5050
    "pgadmin" "pgadmin" "pgadmin-startup"
    (λ _, "registry/pgadmin:8") (λ pg, pgName pg +:+ "-pgadmin")
    tt (λ _, "IfNotPresent") (λ _, tt)
    (Some pgadmin) (Some configmap) out (Some claim).

Definition built : PodSpec unit unit string :=
  default (mkPodSpec [] [] [] EmptyString) (build (Some stale)).

End Sample.

(** ** Reading settings *)

Module Settings.

Import Startup.

(** The value of the last item of a JSON object that has key [k]: what a
    Python [dict] built from these items holds under [k]. *)
Fixpoint last_value (k : string) (items : list (string * Json)) : option Json :=
  match items with
  | [] => None
  | kv :: rest =>
      match last_value k rest with
      | Some v => Some v
      | None => if decide (kv.1 = k) then Some kv.2 else None
      end
  end.

(** A configuration volume for the examples: the ConfigMap sets two
    settings, one of them twice, and a name that is not a setting; the
    Secret holds a password. *)
Definition sample_settings : list (string * Json) :=
  [("SERVER_MODE", JBool true);
   ("LDAP_BIND_PASSWORD", JString "from-configmap");
   ("server_mode", JBool false);
   ("SERVER_MODE", JBool false)].

Definition sample_load (text : string) : option Json :=
  if String.eqb text "settings" then Some (JObject sample_settings) else None.

Definition sample_files : gmap string string :=
  {[ "/etc/pgadmin/conf.d/~postgres-operator/pgadmin-settings.json" := "settings";
     "/etc/pgadmin/conf.d/~postgres-operator/ldap-bind-password" := "from-secret" ]}.

Definition sample_run : option (gmap string Json) :=
  configSystem "pgadmin-settings.json" sample_load (JString "/usr/pgsql-16/bin")
    sample_files.

End Settings.

(** ** Properties of the configuration volume *)

Module ProjectionFacts.

Import Projection.

Section Keys.

Variables settingsConfigMapKey settingsClusterMapKey : string.

Abbreviation files pg := (Files (Config (Spec pg))).
Abbreviation ldap pg := (LDAPBindPassword (Config (Spec pg))).
Abbreviation podConfigFiles := (podConfigFiles settingsConfigMapKey settingsClusterMapKey).
Abbreviation configMapProjection := (configMapProjection settingsConfigMapKey settingsClusterMapKey).

Lemma podConfigFiles_eq (cm : ConfigMapObject) (pg : PGAdmin) :
  podConfigFiles (Some cm) pg
  = Some (files pg ++ configMapProjection cm
            :: match ldap pg with Some sel => [ldapProjection sel] | None => [] end).
Proof.
  unfold Projection.podConfigFiles. simpl.
  destruct (ldap pg); [rewrite <- app_assoc |]; reflexivity.
Qed.

(** A nil ConfigMap pointer is dereferenced. *)
Lemma podConfigFiles_nil (pg : PGAdmin) : podConfigFiles None pg = None.
Proof. reflexivity. Qed.

(** C10. For every PGAdmin and ConfigMap the result starts with the user's
    projections in their order, the operator's ConfigMap projection comes
    right after them; with an LDAP bind password the Secret projection is
    the last element (two more elements than the user listed), without it
    the result has exactly one more element than the user listed. *)
Theorem podConfigFiles_layout (cm : ConfigMapObject) (pg : PGAdmin) :
  ∃ r : list VolumeProjection,
    podConfigFiles (Some cm) pg = Some r
    ∧ take (length (files pg)) r = files pg
    ∧ r !! length (files pg)
      = Some (mkVolumeProjection None
                (Some (mkConfigMapProjection (mkRef (cmName cm))
                   [mkKeyToPath settingsConfigMapKey
                      ("~postgres-operator/" +:+ settingsConfigMapKey);
                    mkKeyToPath settingsClusterMapKey
                      ("~postgres-operator/" +:+ settingsClusterMapKey)]
                   None)))
    ∧ match ldap pg with
      | Some sel =>
          last r
          = Some (mkVolumeProjection
                    (Some (mkSecretProjection (selLocalObjectReference sel)
                       [mkKeyToPath (selKey sel)
                          "~postgres-operator/ldap-bind-password"]
                       (selOptional sel)))
                    None)
          ∧ length r = S (S (length (files pg)))
      | None => length r = S (length (files pg))
      end.
Proof.
  eexists. split; [apply podConfigFiles_eq |].
  split; [by rewrite take_app_length |].
  split.
  - rewrite lookup_app_r by lia. by rewrite Nat.sub_diag.
  - destruct (ldap pg) as [sel|].
    + split.
      * change (?x :: [?y]) with ([x] ++ [y]).
        rewrite !app_assoc. apply last_snoc.
      * rewrite length_app. simpl. lia.
    + rewrite length_app. simpl. lia.
Qed.

Example fullmatch_setting : Startup.fullmatch "LDAP_BIND_PASSWORD" = true.
Proof. reflexivity. Qed.

Example fullmatch_lower_case : Startup.fullmatch "ldap_bind_password" = false.
Proof. reflexivity. Qed.

Example fullmatch_empty : Startup.fullmatch EmptyString = false.
Proof. reflexivity. Qed.

(** Two user projections and an LDAP password: four projections, the
    Secret last. *)
Example podConfigFiles_with_ldap (u1 u2 : VolumeProjection) (sel : SecretKeySelector) :
  podConfigFiles (Some (mkConfigMap "pgadmin-cm"))
    (mkPGAdmin "admin" "ns"
       (mkPGAdminSpec (mkPGAdminConfiguration [u1; u2] (Some sel))))
  = Some [u1; u2; configMapProjection (mkConfigMap "pgadmin-cm"); ldapProjection sel].
Proof. reflexivity. Qed.

(** The Secret projection puts the password at the path the configuration
    script reads. *)
Lemma ldapProjection_path (sel : SecretKeySelector) :
  ∃ sec, Secret (ldapProjection sel) = Some sec
    ∧ Path <$> secItems sec = [ldapFilePath]
    ∧ Startup.ldapPasswordAbsolutePath = configMountPath +:+ "/" +:+ ldapFilePath.
Proof. by eexists. Qed.

(** X13. Whatever the settings of the ConfigMap say, a mounted password
    file decides [LDAP_BIND_PASSWORD]: the script assigns it last. *)
Lemma ldap_secret_overrides_settings
    (json_load : string → option Startup.Json) (paths : Startup.Json)
    (fs : gmap string string) (password : string) (g : gmap string Startup.Json) :
  fs !! Startup.ldapPasswordAbsolutePath = Some password →
  Startup.configSystem settingsConfigMapKey json_load paths fs = Some g →
  g !! "LDAP_BIND_PASSWORD" = Some (Startup.JString password).
Proof.
  intros Hpw. unfold Startup.configSystem.
  destruct (fs !! (_ +:+ "/" +:+ configFilePath _)) as [text|]; [| done].
  destruct (json_load text) as [data|]; [| done].
  rewrite Hpw. intros [= <-]. apply lookup_insert_eq.
Qed.

End Keys.

End ProjectionFacts.

(** ** Properties of the supervisor script *)

Module MonitorFacts.

Import Monitor.

Local Open Scope Z_scope.

(** *** The world *)

Lemma env_steps_app (es es' : list EnvEvent) (w : World) :
  env_steps (es ++ es') w = env_steps es' (env_steps es w).
Proof. unfold env_steps. by rewrite fold_left_app. Qed.

Lemma clock_env_step (w : World) (e : EnvEvent) : clock w ≤ clock (env_step w e).
Proof. destruct e; simpl; lia. Qed.

Lemma clock_env_steps (es : list EnvEvent) (w : World) :
  clock w ≤ clock (env_steps es w).
Proof.
  revert w. induction es as [|e es IH]; intros w; simpl; [lia |].
  etransitivity; [apply (clock_env_step w e) | apply IH].
Qed.

Lemma keeps_file_steps (es : list EnvEvent) (w : World) :
  forallb keeps_file es = true →
  cluster_file (env_steps es w) = cluster_file w.
Proof.
  revert w. induction es as [|e es IH]; intros w H; simpl in *; [done |].
  apply andb_prop in H as [He Hes]. rewrite IH by done.
  by destruct e.
Qed.

(** *** The two halves of the loop body *)

Lemma newer_than_spec (file : option Z) (fd : Z) :
  newer_than file fd = true ↔ ∃ t, file = Some t ∧ fd < t.
Proof.
  destruct file as [t|]; simpl.
  - rewrite bool_decide_eq_true. split; [eauto | by intros (? & [= <-] & ?)].
  - split; [done | by intros (? & ? & ?)].
Qed.

Lemma newer_than_older (t fd : Z) : t ≤ fd → newer_than (Some t) fd = false.
Proof. intros. simpl. apply bool_decide_eq_false. lia. Qed.

Lemma ensure_running_alive (o : TickEnv) (s : State) :
  alive (pidfile s) (env s) = true →
  ensure_running o s = ([TestProc (pidfile s) true], s).
Proof. unfold ensure_running. by intros ->. Qed.

Lemma ensure_running_dead (o : TickEnv) (s : State) :
  alive (pidfile s) (env s) = false →
  ensure_running o s
  = ([TestProc (pidfile s) false; Spawn (next_pid o); WritePid (next_pid o);
      Echo "Restarting pgAdmin4"],
     mkState (spawn (next_pid o) (env s)) (fd_mtime s) (next_pid o)).
Proof. unfold ensure_running. by intros ->. Qed.

Lemma ensure_running_frame (o : TickEnv) (s : State) :
  let s' := (ensure_running o s).2 in
  fd_mtime s' = fd_mtime s
  ∧ clock (env s') = clock (env s)
  ∧ cluster_file (env s') = cluster_file (env s).
Proof. unfold ensure_running. by destruct (alive _ _). Qed.

Lemma ensure_running_trace (o : TickEnv) (s : State) :
  let tr := (ensure_running o s).1 in
  count is_load tr = 0%nat ∧ count is_open tr = 0%nat ∧ count is_stat tr = 0%nat
  ∧ TestProc (pidfile s) (alive (pidfile s) (env s)) ∈ tr.
Proof.
  unfold ensure_running. destruct (alive _ _); simpl; repeat split; set_solver.
Qed.

Lemma count_cons (f : Action → bool) (a : Action) (tr : list Action) :
  count f (a :: tr) = ((if f a then 1 else 0) + count f tr)%nat.
Proof. unfold count. simpl. by destruct (f a). Qed.

(** The three ways an iteration can go. *)
Lemma tick_unchanged (o : TickEnv) (s : State) :
  newer_than (cluster_file (env (wait o s))) (fd_mtime s) = false →
  tick o s
  = (TestNewer false :: (ensure_running o (wait o s)).1,
     Running (ensure_running o (wait o s)).2).
Proof.
  intros H. unfold tick, reload_if_newer. simpl. simpl in H. rewrite H.
  by destruct (ensure_running _ _).
Qed.

Lemma tick_failed (o : TickEnv) (s : State) :
  newer_than (cluster_file (env (wait o s))) (fd_mtime s) = true →
  load_status o ≠ 0 →
  let s1 := mkState (env_steps (during_load o) (env (wait o s)))
              (fd_mtime s) (pidfile s) in
  tick o s
  = (TestNewer true :: LoadServers (load_status o) :: (ensure_running o s1).1,
     Running (ensure_running o s1).2).
Proof.
  intros H Hst. unfold tick, reload_if_newer. simpl. simpl in H. rewrite H.
  apply Z.eqb_neq in Hst. rewrite Hst.
  by destruct (ensure_running _ _).
Qed.

Lemma tick_loaded (o : TickEnv) (s : State) :
  newer_than (cluster_file (env (wait o s))) (fd_mtime s) = true →
  load_status o = 0 →
  let w := env_steps (during_load o) (env (wait o s)) in
  let s1 := mkState w (clock w) (pidfile s) in
  tick o s
  = match cluster_file w with
    | Some t =>
        (TestNewer true :: LoadServers 0 :: OpenFd (clock w) :: Stat (Some t)
           :: (ensure_running o s1).1,
         Running (ensure_running o s1).2)
    | None =>
        ([TestNewer true; LoadServers 0; OpenFd (clock w); Stat None], Exited 1 w)
    end.
Proof.
  intros H Hst. unfold tick, reload_if_newer. simpl. simpl in H.
  rewrite H, Hst. simpl.
  destruct (cluster_file (env_steps (during_load o) _)); [|done].
  by destruct (ensure_running o _).
Qed.

Lemma tick_count_load (o : TickEnv) (s : State) :
  count is_load (tick o s).1
  = if newer_than (cluster_file (env (wait o s))) (fd_mtime s) then 1%nat else 0%nat.
Proof.
  destruct (newer_than _ _) eqn:H.
  - destruct (decide (load_status o = 0)) as [Hst|Hst].
    + rewrite (tick_loaded o s H Hst). cbv zeta.
      destruct (cluster_file (env_steps (during_load o) _)); [|done]. cbn [fst].
      rewrite !count_cons. cbn [is_load].
      by destruct (ensure_running_trace o
        (mkState (env_steps (during_load o) (env (wait o s)))
           (clock (env_steps (during_load o) (env (wait o s)))) (pidfile s)))
        as (-> & _).
    + rewrite (tick_failed o s H Hst). cbn [fst].
      rewrite !count_cons. cbn [is_load].
      by destruct (ensure_running_trace o
        (mkState (env_steps (during_load o) (env (wait o s)))
           (fd_mtime s) (pidfile s))) as (-> & _).
  - rewrite (tick_unchanged o s H). cbn [fst].
    rewrite !count_cons. cbn [is_load].
    by destruct (ensure_running_trace o (wait o s)) as (-> & _).
Qed.

(** *** The change predicate *)

(** C3. At every poll the change predicate holds exactly when the file
    exists with a modification time strictly greater than the watermark;
    the iteration runs the load command once when it holds and not at all
    otherwise, so never on an equal or older time. *)
Theorem reload_iff_strictly_newer (o : TickEnv) (s : State) :
  let w := env (wait o s) in
  (newer_than (cluster_file w) (fd_mtime s) = true
   ↔ ∃ t, cluster_file w = Some t ∧ fd_mtime s < t)
  ∧ count is_load (tick o s).1
    = (if newer_than (cluster_file w) (fd_mtime s) then 1%nat else 0%nat)
  ∧ (∀ t, cluster_file w = Some t → t ≤ fd_mtime s →
       count is_load (tick o s).1 = 0%nat).
Proof.
  intros w. split; [apply newer_than_spec |].
  split; [apply tick_count_load |].
  intros t Ht Hle. rewrite tick_count_load. fold w. rewrite Ht.
  by rewrite newer_than_older.
Qed.

Lemma reload_iff_strictly_newer_witness :
  count is_load (tick calm settled).1 = 0%nat.
Proof.
  apply (proj2 (proj2 (reload_iff_strictly_newer calm settled)) 10);
    [reflexivity | simpl; lia].
Defined.

(** *** A missing file *)

(** C6. When the watched file does not exist at the poll, the test is
    false, the load command is not run, the script does not exit, and the
    iteration goes on to test the recorded process, restarting pgAdmin if
    it is gone. *)
Theorem missing_file_is_no_change (o : TickEnv) (s : State) :
  cluster_file (env (wait o s)) = None →
  ∃ tr s',
    tick o s = (TestNewer false :: tr, Running s')
    ∧ (tr, s') = ensure_running o (wait o s)
    ∧ count is_load (TestNewer false :: tr) = 0%nat
    ∧ fd_mtime s' = fd_mtime s
    ∧ TestProc (pidfile s) (alive (pidfile s) (env (wait o s))) ∈ tr
    ∧ (alive (pidfile s) (env (wait o s)) = false →
       Spawn (next_pid o) ∈ tr ∧ pidfile s' = next_pid o
       ∧ alive (next_pid o) (env s') = true).
Proof.
  intros Hnone.
  assert (Hn : newer_than (cluster_file (env (wait o s))) (fd_mtime s) = false)
    by (by rewrite Hnone).
  exists (ensure_running o (wait o s)).1, (ensure_running o (wait o s)).2.
  split; [by apply tick_unchanged |].
  split; [by destruct (ensure_running _ _) |].
  destruct (ensure_running_trace o (wait o s)) as (Hl & _ & _ & Hin).
  split; [by rewrite count_cons, Hl |].
  split; [apply (ensure_running_frame o (wait o s)) |].
  split; [exact Hin |].
  intros Hdead. rewrite (ensure_running_dead o (wait o s)) by exact Hdead.
  simpl. split; [set_solver |]. split; [done |].
  unfold alive. apply bool_decide_eq_true. simpl. set_solver.
Qed.

Lemma missing_file_is_no_change_witness :
  ∃ tr s',
    tick calm bare = (TestNewer false :: tr, Running s')
    ∧ (tr, s') = ensure_running calm (wait calm bare)
    ∧ count is_load (TestNewer false :: tr) = 0%nat
    ∧ fd_mtime s' = fd_mtime bare
    ∧ TestProc (pidfile bare) (alive (pidfile bare) (env (wait calm bare))) ∈ tr
    ∧ (alive (pidfile bare) (env (wait calm bare)) = false →
       Spawn (next_pid calm) ∈ tr ∧ pidfile s' = next_pid calm
       ∧ alive (next_pid calm) (env s') = true).
Proof. apply (missing_file_is_no_change calm bare). reflexivity. Defined.

(** *** Quiescent states *)

Lemma quiescent_spec (s : State) :
  quiescent s = true
  ↔ newer_than (cluster_file (env s)) (fd_mtime s) = false
    ∧ alive (pidfile s) (env s) = true.
Proof.
  unfold quiescent. rewrite andb_true_iff, negb_true_iff. done.
Qed.

Lemma quiet_step (s : State) (e : EnvEvent) (w : World) :
  quiet_event s e = true →
  quiescent (mkState w (fd_mtime s) (pidfile s)) = true →
  quiescent (mkState (env_step w e) (fd_mtime s) (pidfile s)) = true.
Proof.
  rewrite !quiescent_spec. simpl. intros He [Hn Ha].
  destruct e as [d| |m|p]; simpl in *; try done.
  - split; [by apply negb_true_iff |done].
  - split; [done |]. unfold alive in *. simpl.
    apply bool_decide_eq_true in Ha. apply bool_decide_eq_true.
    apply negb_true_iff, Pos.eqb_neq in He. set_solver.
Qed.

Lemma quiet_steps (s : State) (es : list EnvEvent) (w : World) :
  forallb (quiet_event s) es = true →
  quiescent (mkState w (fd_mtime s) (pidfile s)) = true →
  quiescent (mkState (env_steps es w) (fd_mtime s) (pidfile s)) = true.
Proof.
  revert w. induction es as [|e es IH]; intros w H Hq; simpl in *; [done |].
  apply andb_prop in H as [He Hes]. apply IH; [done |]. by apply quiet_step.
Qed.

(** On a quiescent state an idle iteration only performs its two tests. *)
Lemma tick_quiescent (o : TickEnv) (s : State) :
  quiescent s = true → idle s o = true →
  tick o s = ([TestNewer false; TestProc (pidfile s) true], Running (wait o s))
  ∧ quiescent (wait o s) = true.
Proof.
  intros Hq Hi.
  assert (Hq' : quiescent (wait o s) = true).
  { unfold wait. apply quiet_steps; [exact Hi | by destruct s]. }
  split; [| exact Hq'].
  apply quiescent_spec in Hq' as [Hn Ha].
  rewrite tick_unchanged by exact Hn.
  by rewrite (ensure_running_alive o (wait o s)) by exact Ha.
Qed.

Lemma ticks_quiescent (os : list TickEnv) (s : State) :
  quiescent s = true → forallb (idle s) os = true →
  ∃ s', ticks os s
        = (replicate (length os) [TestNewer false; TestProc (pidfile s) true],
           Running s')
        ∧ fd_mtime s' = fd_mtime s ∧ pidfile s' = pidfile s
        ∧ quiescent s' = true.
Proof.
  revert s. induction os as [|o os IH]; intros s Hq Hi; simpl in *.
  - by exists s.
  - apply andb_prop in Hi as [Ho Hos].
    destruct (tick_quiescent o s Hq Ho) as [-> Hq'].
    destruct (IH (wait o s) Hq' Hos) as (s' & -> & Hfd & Hpid & Hq'').
    by exists s'.
Qed.

(** C7. From a state in which the file is not newer than the watermark and
    the recorded process is alive, any number of consecutive iterations
    during which that stays so perform nothing but the two tests: no load
    command, no restart, and the watermark and the recorded process id are
    unchanged. *)
Theorem quiescent_ticks_idempotent (os : list TickEnv) (s : State) :
  quiescent s = true → forallb (idle s) os = true →
  ∃ trs s',
    ticks os s = (trs, Running s')
    ∧ trs = replicate (length os) [TestNewer false; TestProc (pidfile s) true]
    ∧ Forall (λ tr, count is_load tr = 0%nat ∧ count is_spawn tr = 0%nat
                    ∧ count is_open tr = 0%nat) trs
    ∧ fd_mtime s' = fd_mtime s
    ∧ pidfile s' = pidfile s
    ∧ quiescent s' = true.
Proof.
  intros Hq Hi.
  destruct (ticks_quiescent os s Hq Hi) as (s' & Ht & Hfd & Hpid & Hq').
  eexists _, s'. split; [exact Ht |]. split; [done |].
  split; [| done].
  apply Forall_forall. by intros tr [-> _]%elem_of_replicate.
Qed.

Lemma quiescent_ticks_idempotent_witness :
  ∃ trs s',
    ticks [calm; failing; slow] settled = (trs, Running s')
    ∧ trs = replicate 3 [TestNewer false; TestProc 4821%positive true]
    ∧ Forall (λ tr, count is_load tr = 0%nat ∧ count is_spawn tr = 0%nat
                    ∧ count is_open tr = 0%nat) trs
    ∧ fd_mtime s' = 10
    ∧ pidfile s' = 4821%positive
    ∧ quiescent s' = true.
Proof.
  apply (quiescent_ticks_idempotent [calm; failing; slow] settled);
    vm_compute; reflexivity.
Defined.

(** *** Restart *)

Lemma reload_if_newer_pidfile (o : TickEnv) (s : State) (tr : list Action) (s1 : State) :
  reload_if_newer o s = (tr, Running s1) →
  pidfile s1 = pidfile s ∧ started tr = [].
Proof.
  unfold reload_if_newer.
  destruct (newer_than _ _); [| by intros [= <- <-]].
  destruct (load_status o =? 0); [| by intros [= <- <-]].
  destruct (cluster_file _); [by intros [= <- <-] | done].
Qed.

Lemma started_app (tr tr' : list Action) :
  started (tr ++ tr') = started tr ++ started tr'.
Proof. apply omap_app. Qed.

(** An iteration either starts nothing and keeps the record, or starts one
    process and records its id. *)
Lemma tick_started (o : TickEnv) (s : State) (tr : list Action) (s' : State) :
  tick o s = (tr, Running s') →
  (started tr = [] ∧ pidfile s' = pidfile s)
  ∨ (started tr = [next_pid o] ∧ pidfile s' = next_pid o).
Proof.
  unfold tick.
  destruct (reload_if_newer o (wait o s)) as [tr1 [s1|st w]] eqn:H1; [| done].
  apply reload_if_newer_pidfile in H1 as [Hp Hs]. simpl in Hp.
  unfold ensure_running.
  destruct (alive _ _); intros [= <- <-]; rewrite started_app, Hs; simpl; auto.
Qed.

Lemma ticks_started (os : list TickEnv) (s : State)
    (trs : list (list Action)) (s' : State) (pre : list pid) :
  ticks os s = (trs, Running s') →
  last (pre ++ [pidfile s]) = Some (pidfile s) →
  last (pre ++ pidfile s :: started (concat trs)) = Some (pidfile s').
Proof.
  revert s trs pre. induction os as [|o os IH]; intros s trs pre; simpl.
  - intros [= <- <-] _. simpl. apply last_snoc.
  - destruct (tick o s) as [tr [s1|st w]] eqn:Ht; [| done].
    destruct (ticks os s1) as [trs1 out] eqn:Hts.
    intros [= <- ->] _. simpl. rewrite started_app.
    apply tick_started in Ht as [[-> Hp]|[-> Hp]]; simpl.
    + rewrite <- Hp. apply (IH s1 trs1 pre Hts). apply last_snoc.
    + rewrite <- Hp.
      change (pre ++ pidfile s :: pidfile s1 :: started (concat trs1))
        with (pre ++ [pidfile s] ++ pidfile s1 :: started (concat trs1)).
      rewrite app_assoc. apply (IH s1 trs1 _ Hts). apply last_snoc.
Qed.

(** C5. When the test of the recorded process id finds no such process,
    the same iteration starts pgAdmin again and overwrites the record with
    the new id; and in every state the script reaches, after start-up and
    after any number of iterations, the recorded id is that of the process
    started last. *)
Theorem dead_process_restarted :
  (∀ (o : TickEnv) (s : State) (tr : list Action) (s1 : State),
      reload_if_newer o (wait o s) = (tr, Running s1) →
      alive (pidfile s) (env s1) = false →
      ∃ s', tick o s
            = (tr ++ [TestProc (pidfile s) false; Spawn (next_pid o);
                      WritePid (next_pid o); Echo "Restarting pgAdmin4"],
               Running s')
            ∧ pidfile s' = next_pid o
            ∧ alive (next_pid o) (env s') = true)
  ∧ (∀ (b : BootEnv) (os : list TickEnv) (w : World) (tr : list Action) (s : State),
      monitor b os w = (tr, Running s) →
      last (started tr) = Some (pidfile s)).
Proof.
  split.
  - intros o s tr s1 H1 Hdead. unfold tick. rewrite H1.
    destruct (reload_if_newer_pidfile _ _ _ _ H1) as [Hp _]. simpl in Hp.
    rewrite <- Hp in Hdead. rewrite (ensure_running_dead o s1 Hdead), Hp.
    eexists. split; [reflexivity |]. split; [done |].
    unfold alive. apply bool_decide_eq_true. simpl. set_solver.
  - intros b os w tr s. unfold monitor, startScript, reloadScript.
    destruct (setup_status b =? 0); [| done].
    destruct (boot_load_status b =? 0); [| done].
    destruct (ticks os _) as [trs out] eqn:Hts.
    intros [= <- ->]. simpl.
    apply (ticks_started os _ trs s [] Hts). done.
Qed.

Lemma dead_process_restarted_witness :
  (∃ s', tick calm bare
         = ([TestNewer false]
              ++ [TestProc 4821%positive false; Spawn 5102%positive;
                  WritePid 5102%positive; Echo "Restarting pgAdmin4"],
            Running s')
         ∧ pidfile s' = 5102%positive
         ∧ alive 5102%positive (env s') = true)
  ∧ last (started (monitor boot [calm; failing] fresh).1) = Some 4821%positive.
Proof.
  split.
  - apply (proj1 dead_process_restarted calm bare [TestNewer false] (wait calm bare));
      reflexivity.
  - apply (proj2 dead_process_restarted boot [calm; failing] fresh
             (monitor boot [calm; failing] fresh).1
             (mkState (mkWorld 20 (Some 3) {[4821%positive]}) 10 4821%positive)).
    vm_compute. reflexivity.
Defined.

(** *** Start-up *)

(** C9. Once the setup step has succeeded, the start-up sequence starts
    pgAdmin, records its id and runs the load command exactly once, without
    testing the file first and whatever the file's modification time is;
    the loop is entered only after that, so every run that reaches its
    first iteration has one load command before it. *)
Theorem boot_loads_once (b : BootEnv) (w : World) :
  (setup_status b = 0 →
   (startScript b w).1
   = [Echo "Running pgAdmin4 Setup"; Setup 0; Echo "Starting pgAdmin4";
      Spawn (boot_pid b); WritePid (boot_pid b);
      LoadServers (boot_load_status b)]
   ∧ count is_load (startScript b w).1 = 1%nat)
  ∧ (∀ m : option Z,
       (startScript b (mkWorld (clock w) m (procs w))).1 = (startScript b w).1)
  ∧ (∀ (w' : World) (p : pid) (os : list TickEnv),
       (startScript b w).2 = Started w' p →
       setup_status b = 0 ∧ boot_load_status b = 0
       ∧ (monitor b os w).1
         = [Echo "Running pgAdmin4 Setup"; Setup 0; Echo "Starting pgAdmin4";
            Spawn (boot_pid b); WritePid (boot_pid b); LoadServers 0]
           ++ OpenFd (clock w') :: concat (ticks os (mkState w' (clock w') p)).1).
Proof.
  split; [| split].
  - intros Hs. unfold startScript. rewrite Hs. done.
  - intros m. unfold startScript. by destruct (setup_status b =? 0).
  - intros w' p os. unfold monitor, startScript, reloadScript.
    destruct (setup_status b =? 0) eqn:Hs; [| done].
    destruct (boot_load_status b =? 0) eqn:Hl; [| done].
    apply Z.eqb_eq in Hs, Hl. simpl. intros [= <- <-].
    rewrite Hl. split; [done |]. split; [done |].
    by destruct (ticks os _).
Qed.

Lemma boot_loads_once_witness :
  (startScript boot fresh).1
  = [Echo "Running pgAdmin4 Setup"; Setup 0; Echo "Starting pgAdmin4";
     Spawn 4821%positive; WritePid 4821%positive; LoadServers 0]
  ∧ count is_load (startScript boot fresh).1 = 1%nat.
Proof. apply (proj1 (boot_loads_once boot fresh)). reflexivity. Defined.

(** *** A failing load command *)

(** After a failed load the iteration has run no [exec] and no [stat], and
    the descriptor is the one it started with. *)
Lemma tick_failed_frame (o : TickEnv) (s : State) :
  newer_than (cluster_file (env (wait o s))) (fd_mtime s) = true →
  load_status o ≠ 0 →
  ∃ tr s',
    tick o s = (TestNewer true :: LoadServers (load_status o) :: tr, Running s')
    ∧ (tr, s') = ensure_running o
                   (mkState (env_steps (during_load o) (env (wait o s)))
                      (fd_mtime s) (pidfile s))
    ∧ fd_mtime s' = fd_mtime s
    ∧ cluster_file (env s') = cluster_file (env_steps (during_load o) (env (wait o s)))
    ∧ count is_load (TestNewer true :: LoadServers (load_status o) :: tr) = 1%nat
    ∧ count is_open (TestNewer true :: LoadServers (load_status o) :: tr) = 0%nat
    ∧ count is_stat (TestNewer true :: LoadServers (load_status o) :: tr) = 0%nat.
Proof.
  intros H Hst. rewrite (tick_failed o s H Hst).
  set (s1 := mkState _ _ _).
  exists (ensure_running o s1).1, (ensure_running o s1).2.
  destruct (ensure_running_frame o s1) as (Hfd & _ & Hfile).
  destruct (ensure_running_trace o s1) as (Hl & Ho & Hs & _).
  rewrite !count_cons, Hl, Ho, Hs.
  repeat split; try done. by destruct (ensure_running o s1).
Qed.

(** C1 fails: the file was rewritten at time 15, the load command exits
    with status 1; the watermark is still 10 after the iteration, and the
    next iteration, with the file untouched, runs the load command again. *)
Lemma failed_reload_counterexample :
  ∃ tr s',
    tick failing rewritten = (tr, Running s')
    ∧ cluster_file (env (wait failing rewritten)) = Some 15
    ∧ LoadServers 1 ∈ tr
    ∧ ¬ (fd_mtime rewritten < fd_mtime s')
    ∧ fd_mtime s' ≠ 15
    ∧ cluster_file (env (wait failing s')) = Some 15
    ∧ count is_load (tick failing s').1 = 1%nat.
Proof.
  eexists _, _. split; [vm_compute; reflexivity |].
  repeat split; try (vm_compute; congruence).
  set_solver.
Qed.

(** C1, amended. The watermark moves only when the load command exits with
    status 0. After an iteration in which it exits non-zero the watermark
    is unchanged, the loop has printed nothing about it (it ran the test,
    the load command and then only the process check), the same iteration
    goes on to the process check, and the next iteration runs the load
    command again if the file is as it was. *)
Theorem failed_reload_keeps_watermark (o : TickEnv) (s : State) :
  newer_than (cluster_file (env (wait o s))) (fd_mtime s) = true →
  load_status o ≠ 0 →
  ∃ tr s',
    tick o s = (TestNewer true :: LoadServers (load_status o) :: tr, Running s')
    ∧ (tr, s') = ensure_running o
                   (mkState (env_steps (during_load o) (env (wait o s)))
                      (fd_mtime s) (pidfile s))
    ∧ fd_mtime s' = fd_mtime s
    ∧ TestProc (pidfile s)
        (alive (pidfile s) (env_steps (during_load o) (env (wait o s)))) ∈ tr
    ∧ (∀ o' : TickEnv,
         cluster_file (env (wait o' s')) = cluster_file (env (wait o s)) →
         count is_load (tick o' s').1 = 1%nat).
Proof.
  intros H Hst.
  destruct (tick_failed_frame o s H Hst) as (tr & s' & Ht & He & Hfd & _).
  exists tr, s'. split; [exact Ht |]. split; [exact He |]. split; [exact Hfd |].
  split.
  - pose proof (ensure_running_trace o
      (mkState (env_steps (during_load o) (env (wait o s))) (fd_mtime s) (pidfile s)))
      as (_ & _ & _ & Hin).
    by rewrite <- He in Hin.
  - intros o' Hsame. by rewrite tick_count_load, Hsame, Hfd, H.
Qed.

Lemma failed_reload_keeps_watermark_witness :
  ∃ tr s',
    tick failing rewritten = (TestNewer true :: LoadServers 1 :: tr, Running s')
    ∧ (tr, s') = ensure_running failing
                   (mkState (env_steps [] (env (wait failing rewritten))) 10 4821%positive)
    ∧ fd_mtime s' = 10
    ∧ TestProc 4821%positive
        (alive 4821%positive (env_steps [] (env (wait failing rewritten)))) ∈ tr
    ∧ (∀ o' : TickEnv,
         cluster_file (env (wait o' s')) = cluster_file (env (wait failing rewritten)) →
         count is_load (tick o' s').1 = 1%nat).
Proof.
  apply (failed_reload_keeps_watermark failing rewritten);
    [reflexivity | simpl; lia].
Defined.

Lemma ticks_failing (os : list TickEnv) (s : State) (t : Z) :
  cluster_file (env s) = Some t → fd_mtime s < t →
  forallb (λ o, steady o && negb (load_status o =? 0)) os = true →
  ∃ trs s',
    ticks os s = (trs, Running s')
    ∧ length trs = length os
    ∧ Forall (λ tr, count is_load tr = 1%nat ∧ count is_open tr = 0%nat
                    ∧ count is_stat tr = 0%nat) trs
    ∧ fd_mtime s' = fd_mtime s
    ∧ cluster_file (env s') = Some t.
Proof.
  revert s. induction os as [|o os IH]; intros s Hfile Hlt Hos; simpl in *.
  - exists [], s. by repeat split.
  - apply andb_prop in Hos as [Ho Hos].
    apply andb_prop in Ho as [Hsteady Hst].
    apply andb_prop in Hsteady as [Hw Hl].
    apply negb_true_iff, Z.eqb_neq in Hst.
    assert (Hn : newer_than (cluster_file (env (wait o s))) (fd_mtime s) = true).
    { simpl. rewrite keeps_file_steps, Hfile by done. simpl.
      by apply bool_decide_eq_true. }
    destruct (tick_failed_frame o s Hn Hst)
      as (tr & s1 & Ht & _ & Hfd & Hfile1 & Hc1 & Hc2 & Hc3).
    rewrite keeps_file_steps in Hfile1 by done. simpl in Hfile1.
    rewrite keeps_file_steps, Hfile in Hfile1 by done.
    destruct (IH s1) as (trs & s' & Hts & Hlen & Hall & Hfd' & Hfile');
      [done | lia | done |].
    rewrite Ht, Hts. eexists _, s'. split; [reflexivity |].
    split; [simpl; lia |]. split; [by constructor |].
    split; [congruence | done].
Qed.

(** C8. When the file is newer than the descriptor and the load command
    exits non-zero, the descriptor is not reopened, so the watermark is
    unchanged, and [stat] does not print the success line; as long as the
    file is left alone every following iteration runs the load command
    again, and the first one in which it succeeds reopens the descriptor
    and prints the line. *)
Theorem reload_retried_until_success :
  (∀ (o : TickEnv) (s : State),
      newer_than (cluster_file (env (wait o s))) (fd_mtime s) = true →
      load_status o ≠ 0 →
      ∃ tr s',
        tick o s = (tr, Running s')
        ∧ fd_mtime s' = fd_mtime s
        ∧ count is_load tr = 1%nat
        ∧ count is_open tr = 0%nat
        ∧ count is_stat tr = 0%nat)
  ∧ (∀ (os : list TickEnv) (s : State) (t : Z),
      cluster_file (env s) = Some t → fd_mtime s < t →
      forallb (λ o, steady o && negb (load_status o =? 0)) os = true →
      ∃ trs s',
        ticks os s = (trs, Running s')
        ∧ length trs = length os
        ∧ Forall (λ tr, count is_load tr = 1%nat ∧ count is_open tr = 0%nat
                        ∧ count is_stat tr = 0%nat) trs
        ∧ fd_mtime s' = fd_mtime s
        ∧ (∀ o : TickEnv,
             steady o = true → load_status o = 0 →
             ∃ tr s'',
               tick o s'
               = (TestNewer true :: LoadServers 0 :: OpenFd (clock (env s''))
                    :: Stat (Some t) :: tr, Running s'')
               ∧ fd_mtime s'' = clock (env s''))).
Proof.
  split.
  - intros o s H Hst.
    destruct (tick_failed_frame o s H Hst)
      as (tr & s' & Ht & _ & Hfd & _ & Hc1 & Hc2 & Hc3).
    by eexists _, s'.
  - intros os s t Hfile Hlt Hos.
    destruct (ticks_failing os s t Hfile Hlt Hos)
      as (trs & s' & Hts & Hlen & Hall & Hfd & Hfile').
    exists trs, s'. repeat (split; [done |]).
    intros o [Hw Hl]%andb_prop Hst.
    assert (Hn : newer_than (cluster_file (env (wait o s'))) (fd_mtime s') = true).
    { simpl. rewrite keeps_file_steps, Hfile', Hfd by done. simpl.
      by apply bool_decide_eq_true. }
    rewrite (tick_loaded o s' Hn Hst). cbv zeta.
    rewrite keeps_file_steps by done. simpl.
    rewrite keeps_file_steps, Hfile' by done.
    set (s1 := mkState _ _ _).
    destruct (ensure_running_frame o s1) as (Hfd1 & Hck & _).
    exists (ensure_running o s1).1, (ensure_running o s1).2.
    rewrite Hfd1, Hck. done.
Qed.

Lemma reload_retried_until_success_witness :
  (∃ tr s',
     tick failing rewritten = (tr, Running s')
     ∧ fd_mtime s' = 10
     ∧ count is_load tr = 1%nat
     ∧ count is_open tr = 0%nat
     ∧ count is_stat tr = 0%nat)
  ∧ (∃ trs s',
       ticks [failing; failing] rewritten = (trs, Running s')
       ∧ length trs = 2%nat
       ∧ Forall (λ tr, count is_load tr = 1%nat ∧ count is_open tr = 0%nat
                       ∧ count is_stat tr = 0%nat) trs
       ∧ fd_mtime s' = 10
       ∧ (∀ o : TickEnv,
            steady o = true → load_status o = 0 →
            ∃ tr s'',
              tick o s'
              = (TestNewer true :: LoadServers 0 :: OpenFd (clock (env s''))
                   :: Stat (Some 15) :: tr, Running s'')
              ∧ fd_mtime s'' = clock (env s''))).
Proof.
  split.
  - apply (proj1 reload_retried_until_success failing rewritten);
      [reflexivity | simpl; lia].
  - apply (proj2 reload_retried_until_success [failing; failing] rewritten 15);
      [reflexivity | simpl; lia | reflexivity].
Defined.

(** *** What the watermark is *)

(** C2 fails: the file was rewritten at time 15; the poll at time 25 sees
    it, the load command succeeds three time units later, and the watermark
    becomes 28, the time the descriptor is reopened, not 15. *)
Lemma watermark_counterexample :
  ∃ tr s',
    tick slow rewritten = (tr, Running s')
    ∧ cluster_file (env (wait slow rewritten)) = Some 15
    ∧ fd_mtime rewritten < 15
    ∧ LoadServers 0 ∈ tr
    ∧ fd_mtime s' = 28
    ∧ fd_mtime s' ≠ 15.
Proof.
  eexists _, _. split; [vm_compute; reflexivity |].
  repeat split; try (vm_compute; congruence).
  set_solver.
Qed.

(** C2, amended. When a change is detected and the load command exits with
    status 0, the descriptor is reopened after the command has returned
    and the watermark becomes the clock reading of that moment, whatever
    the file's modification time is. *)
Theorem successful_reload_stamps_clock (o : TickEnv) (s : State) (t : Z) :
  newer_than (cluster_file (env (wait o s))) (fd_mtime s) = true →
  load_status o = 0 →
  cluster_file (env_steps (during_load o) (env (wait o s))) = Some t →
  ∃ tr s',
    tick o s
    = (TestNewer true :: LoadServers 0 :: OpenFd (fd_mtime s') :: Stat (Some t) :: tr,
       Running s')
    ∧ fd_mtime s' = clock (env_steps (during_load o) (env (wait o s)))
    ∧ fd_mtime s' = clock (env s')
    ∧ clock (env s) ≤ fd_mtime s'.
Proof.
  intros H Hst Hfile. rewrite (tick_loaded o s H Hst). cbv zeta. rewrite Hfile.
  set (s1 := mkState _ _ _).
  destruct (ensure_running_frame o s1) as (Hfd & Hck & _).
  exists (ensure_running o s1).1, (ensure_running o s1).2.
  rewrite Hfd, Hck. simpl. repeat split.
  etransitivity; [| apply clock_env_steps]. apply clock_env_steps.
Qed.

Lemma successful_reload_stamps_clock_witness :
  ∃ tr s',
    tick slow rewritten
    = (TestNewer true :: LoadServers 0 :: OpenFd (fd_mtime s') :: Stat (Some 15) :: tr,
       Running s')
    ∧ fd_mtime s' = clock (env_steps (during_load slow) (env (wait slow rewritten)))
    ∧ fd_mtime s' = clock (env s')
    ∧ clock (env rewritten) ≤ fd_mtime s'.
Proof.
  apply (successful_reload_stamps_clock slow rewritten 15); reflexivity.
Defined.

(** *** Late writes *)

Lemma idle_replicate (s : State) (o : TickEnv) (n : nat) :
  idle s o = true → forallb (idle s) (replicate n o) = true.
Proof. intros H. induction n as [|n IH]; simpl; [done |]. by rewrite H, IH. Qed.

(** C4 fails in two ways. First, the file, last rewritten at time 15, is
    written again at time 26 while the load command of the iteration that
    noticed the first change is running; the descriptor is reopened at time
    27, and no later iteration ever runs the load command for the write of
    time 26. Second, from the state that iteration leaves, a write that
    lands at the very clock reading at which the descriptor was reopened is
    not newer than it and goes unnoticed as well. *)
Lemma late_write_counterexample :
  ∃ tr s1,
    tick overlapped rewritten = (tr, Running s1)
    ∧ cluster_file (env (wait overlapped rewritten)) = Some 15
    ∧ cluster_file (env s1) = Some 26
    ∧ fd_mtime s1 = 27
    ∧ (∀ n : nat,
         ∃ s', ticks (replicate n calm) s1
               = (replicate n [TestNewer false; TestProc 4821%positive true],
                  Running s'))
    ∧ (∀ n : nat,
         ∃ s', ticks (mkTickEnv [WriteFile; Elapse 5] 0 [] 5102%positive
                        :: replicate n calm) s1
               = (replicate (S n) [TestNewer false; TestProc 4821%positive true],
                  Running s')).
Proof.
  eexists _, _. split; [vm_compute; reflexivity |].
  repeat split; try (vm_compute; congruence).
  - intros n.
    destruct (ticks_quiescent (replicate n calm)
                (mkState (mkWorld 27 (Some 26) table) 27 4821%positive))
      as (s' & Ht & _); [by vm_compute | by apply idle_replicate |].
    rewrite length_replicate in Ht. by exists s'.
  - intros n. cbn [ticks].
    change (tick _ _) with
      ([TestNewer false; TestProc 4821%positive true],
       Running (mkState (mkWorld 32 (Some 27) table) 27 4821%positive)).
    destruct (ticks_quiescent (replicate n calm)
                (mkState (mkWorld 32 (Some 27) table) 27 4821%positive))
      as (s' & Ht & _); [by vm_compute | by apply idle_replicate |].
    rewrite length_replicate in Ht. rewrite Ht. by exists s'.
Qed.

Lemma tick_fd_le_clock (o : TickEnv) (s : State) (tr : list Action) (s' : State) :
  fd_mtime s ≤ clock (env s) → tick o s = (tr, Running s') →
  fd_mtime s' ≤ clock (env s').
Proof.
  intros Hle. unfold tick, reload_if_newer.
  pose proof (clock_env_steps (during_wait o) (env s)) as Hw.
  pose proof (clock_env_steps (during_load o) (env (wait o s))) as Hl.
  simpl in Hl.
  destruct (newer_than _ _).
  - destruct (load_status o =? 0).
    + destruct (cluster_file (env_steps (during_load o) _)); [| done].
      set (s1 := mkState _ _ _).
      destruct (ensure_running_frame o s1) as (Hfd & Hck & _).
      destruct (ensure_running o s1). intros [= <- <-].
      simpl in *. lia.
    + set (s1 := mkState _ _ _).
      destruct (ensure_running_frame o s1) as (Hfd & Hck & _).
      destruct (ensure_running o s1). intros [= <- <-].
      simpl in *. lia.
  - destruct (ensure_running_frame o (wait o s)) as (Hfd & Hck & _).
    destruct (ensure_running o (wait o s)). intros [= <- <-].
    simpl in *. lia.
Qed.

Lemma ticks_fd_le_clock (os : list TickEnv) (s : State)
    (trs : list (list Action)) (s' : State) :
  fd_mtime s ≤ clock (env s) → ticks os s = (trs, Running s') →
  fd_mtime s' ≤ clock (env s').
Proof.
  revert s trs. induction os as [|o os IH]; intros s trs Hle; simpl.
  - by intros [= <- <-].
  - destruct (tick o s) as [tr [s1|st w]] eqn:Ht; [| done].
    destruct (ticks os s1) as [trs1 out] eqn:Hts. intros [= <- ->].
    eapply IH; [| exact Hts]. by eapply tick_fd_le_clock.
Qed.

(** The watermark of a running script is never ahead of the clock. *)
Lemma monitor_fd_le_clock (b : BootEnv) (os : list TickEnv) (w : World)
    (tr : list Action) (s : State) :
  monitor b os w = (tr, Running s) → fd_mtime s ≤ clock (env s).
Proof.
  unfold monitor, startScript, reloadScript.
  destruct (setup_status b =? 0); [| done].
  destruct (boot_load_status b =? 0); [| done].
  destruct (ticks os _) as [trs out] eqn:Hts. intros [= <- ->].
  eapply ticks_fd_le_clock; [| exact Hts]. simpl. lia.
Qed.

Lemma newer_runs_load (o : TickEnv) (s : State) :
  newer_than (cluster_file (env (wait o s))) (fd_mtime s) = true →
  count is_load (tick o s).1 = 1%nat
  ∧ LoadServers (load_status o) ∈ (tick o s).1.
Proof.
  intros Hn. split; [by rewrite tick_count_load, Hn |].
  destruct (decide (load_status o = 0)) as [Hst|Hst].
  - rewrite (tick_loaded o s Hn Hst). cbv zeta. rewrite Hst.
    destruct (cluster_file (env_steps (during_load o) _)); cbn [fst];
      apply list_elem_of_further, list_elem_of_here.
  - rewrite (tick_failed o s Hn Hst). cbn [fst].
    apply list_elem_of_further, list_elem_of_here.
Qed.

Lemma stamp_kept_until_poll (o : TickEnv) (s : State)
    (pre post : list EnvEvent) (t : Z) :
  during_wait o = pre ++ post →
  cluster_file (env_steps pre (env s)) = Some t →
  fd_mtime s < t →
  forallb keeps_file post = true →
  newer_than (cluster_file (env (wait o s))) (fd_mtime s) = true.
Proof.
  intros Hwait Hfile Hlt Hpost. simpl.
  rewrite Hwait, env_steps_app, keeps_file_steps, Hfile by done. simpl.
  by apply bool_decide_eq_true.
Qed.

(** C4, amended. The comparison is against the time at which the
    descriptor was last opened. Whenever the events of a wait, up to and
    including a write, leave the file with a modification time strictly
    later than that, whether the write stamped the file with the clock or
    put a file with a stamp of its own in its place, and nothing touches
    the file between the write and the poll, the poll that ends the wait
    detects the change and the iteration runs the load command. In
    particular, in any state the script reaches, a write that lands after
    the clock has moved on is detected. *)
Theorem write_after_reopen_detected :
  (∀ (o : TickEnv) (s : State) (pre post : list EnvEvent) (t : Z),
      during_wait o = pre ++ post →
      cluster_file (env_steps pre (env s)) = Some t →
      fd_mtime s < t →
      forallb keeps_file post = true →
      newer_than (cluster_file (env (wait o s))) (fd_mtime s) = true
      ∧ count is_load (tick o s).1 = 1%nat
      ∧ LoadServers (load_status o) ∈ (tick o s).1)
  ∧ (∀ (b : BootEnv) (os : list TickEnv) (w : World) (tr : list Action) (s : State)
       (o : TickEnv) (pre post : list EnvEvent) (d : positive),
      monitor b os w = (tr, Running s) →
      during_wait o = pre ++ Elapse d :: WriteFile :: post →
      forallb keeps_file post = true →
      newer_than (cluster_file (env (wait o s))) (fd_mtime s) = true
      ∧ count is_load (tick o s).1 = 1%nat
      ∧ LoadServers (load_status o) ∈ (tick o s).1).
Proof.
  split.
  - intros o s pre post t Hwait Hfile Hlt Hpost.
    pose proof (stamp_kept_until_poll o s pre post t Hwait Hfile Hlt Hpost) as Hn.
    split; [exact Hn | by apply newer_runs_load].
  - intros b os w tr s o pre post d Hrun Hwait Hpost.
    apply monitor_fd_le_clock in Hrun.
    assert (Hn : newer_than (cluster_file (env (wait o s))) (fd_mtime s) = true).
    { apply (stamp_kept_until_poll o s (pre ++ [Elapse d; WriteFile]) post
               (clock (env_steps pre (env s)) + Z.pos d)); [| | | done].
      - by rewrite <- app_assoc.
      - by rewrite env_steps_app.
      - pose proof (clock_env_steps pre (env s)). lia. }
    split; [exact Hn | by apply newer_runs_load].
Qed.

Lemma write_after_reopen_detected_witness :
  (newer_than
     (cluster_file (env (wait (mkTickEnv [WriteFile; Elapse 5] 0 [] 5102%positive) settled)))
     (fd_mtime settled) = true
   ∧ count is_load
       (tick (mkTickEnv [WriteFile; Elapse 5] 0 [] 5102%positive) settled).1 = 1%nat
   ∧ LoadServers 0
     ∈ (tick (mkTickEnv [WriteFile; Elapse 5] 0 [] 5102%positive) settled).1)
  ∧ (newer_than
       (cluster_file
          (env (wait (mkTickEnv [Elapse 5; Replace (Some 24)] 0 [] 5102%positive) settled)))
       (fd_mtime settled) = true
     ∧ count is_load
         (tick (mkTickEnv [Elapse 5; Replace (Some 24)] 0 [] 5102%positive) settled).1
       = 1%nat
     ∧ LoadServers 0
       ∈ (tick (mkTickEnv [Elapse 5; Replace (Some 24)] 0 [] 5102%positive) settled).1)
  ∧ (newer_than
       (cluster_file
          (env (wait (mkTickEnv [Elapse 2; WriteFile; Elapse 3] 0 [] 5102%positive)
                  (mkState (mkWorld 10 (Some 3) table) 10 4821%positive))))
       10 = true
     ∧ count is_load
         (tick (mkTickEnv [Elapse 2; WriteFile; Elapse 3] 0 [] 5102%positive)
            (mkState (mkWorld 10 (Some 3) table) 10 4821%positive)).1 = 1%nat
     ∧ LoadServers 0
       ∈ (tick (mkTickEnv [Elapse 2; WriteFile; Elapse 3] 0 [] 5102%positive)
            (mkState (mkWorld 10 (Some 3) table) 10 4821%positive)).1).
Proof.
  split; [| split].
  - apply (proj1 write_after_reopen_detected
             (mkTickEnv [WriteFile; Elapse 5] 0 [] 5102%positive) settled
             [WriteFile] [Elapse 5] 20);
      [reflexivity | reflexivity | simpl; lia | reflexivity].
  - apply (proj1 write_after_reopen_detected
             (mkTickEnv [Elapse 5; Replace (Some 24)] 0 [] 5102%positive) settled
             [Elapse 5; Replace (Some 24)] [] 24);
      [reflexivity | reflexivity | simpl; lia | reflexivity].
  - apply (proj2 write_after_reopen_detected boot [] fresh (monitor boot [] fresh).1
             (mkState (mkWorld 10 (Some 3) table) 10 4821%positive)
             (mkTickEnv [Elapse 2; WriteFile; Elapse 3] 0 [] 5102%positive)
             [] [Elapse 3] 2%positive);
      vm_compute; reflexivity.
Defined.

End MonitorFacts.

(** ** Further properties of the supervisor script *)

Module MonitorMore.

Import Monitor Trace MonitorFacts.

Local Open Scope Z_scope.

(** *** The watermark over a run *)

Lemma tick_fd_mono (o : TickEnv) (s : State) (tr : list Action) (s' : State) :
  fd_mtime s ≤ clock (env s) → tick o s = (tr, Running s') →
  fd_mtime s ≤ fd_mtime s'.
Proof.
  intros Hle.
  pose proof (clock_env_steps (during_wait o) (env s)) as Hw.
  pose proof (clock_env_steps (during_load o) (env (wait o s))) as Hl.
  simpl in Hl.
  destruct (newer_than (cluster_file (env (wait o s))) (fd_mtime s)) eqn:Hn.
  - destruct (decide (load_status o = 0)) as [Hst|Hst].
    + rewrite (tick_loaded o s Hn Hst). cbv zeta.
      destruct (cluster_file (env_steps (during_load o) _)); [| done].
      set (s1 := mkState _ _ _). intros [= <- <-].
      destruct (ensure_running_frame o s1) as (-> & _). simpl. lia.
    + rewrite (tick_failed o s Hn Hst). cbv zeta.
      set (s1 := mkState _ _ _). intros [= <- <-].
      destruct (ensure_running_frame o s1) as (-> & _). simpl. lia.
  - rewrite (tick_unchanged o s Hn). intros [= <- <-].
    destruct (ensure_running_frame o (wait o s)) as (-> & _). simpl. lia.
Qed.

Lemma ticks_fd_mono (os : list TickEnv) (s : State)
    (trs : list (list Action)) (s' : State) :
  fd_mtime s ≤ clock (env s) → ticks os s = (trs, Running s') →
  fd_mtime s ≤ fd_mtime s'.
Proof.
  revert s trs. induction os as [|o os IH]; intros s trs Hle; simpl.
  - intros [= <- <-]. lia.
  - destruct (tick o s) as [tr [s1|st w]] eqn:Ht; [| done].
    destruct (ticks os s1) as [trs1 out] eqn:Hts. intros [= <- ->].
    pose proof (tick_fd_mono o s tr s1 Hle Ht).
    pose proof (tick_fd_le_clock o s tr s1 Hle Ht) as Hle1.
    pose proof (IH s1 trs1 Hle1 Hts). lia.
Qed.

(** X1. In any state the script reaches, running more iterations never
    moves the watermark backwards, and the watermark is never ahead of the
    clock. *)
Theorem watermark_never_decreases
    (b : BootEnv) (os os' : list TickEnv) (w : World)
    (tr : list Action) (s : State) (trs : list (list Action)) (s' : State) :
  monitor b os w = (tr, Running s) →
  ticks os' s = (trs, Running s') →
  fd_mtime s ≤ fd_mtime s' ∧ fd_mtime s' ≤ clock (env s').
Proof.
  intros Hrun Hts. apply monitor_fd_le_clock in Hrun.
  split; [by eapply ticks_fd_mono | by eapply ticks_fd_le_clock].
Qed.

Lemma watermark_never_decreases_witness :
  fd_mtime (mkState (mkWorld 10 (Some 3) table) 10 4821%positive)
  ≤ fd_mtime (mkState (mkWorld 34 (Some 16) table) 24 4821%positive)
  ∧ fd_mtime (mkState (mkWorld 34 (Some 16) table) 24 4821%positive)
    ≤ clock (env (mkState (mkWorld 34 (Some 16) table) 24 4821%positive)).
Proof.
  apply (watermark_never_decreases boot []
           [mkTickEnv [Elapse 6; WriteFile; Elapse 5] 0 [Elapse 3] 5102%positive;
            failing; calm]
           fresh (monitor boot [] fresh).1
           (mkState (mkWorld 10 (Some 3) table) 10 4821%positive)
           (ticks [mkTickEnv [Elapse 6; WriteFile; Elapse 5] 0 [Elapse 3] 5102%positive;
                   failing; calm]
              (mkState (mkWorld 10 (Some 3) table) 10 4821%positive)).1);
    vm_compute; reflexivity.
Defined.

(** *** The process check *)

Lemma ensure_running_ends_alive (o : TickEnv) (s : State) :
  alive (pidfile (ensure_running o s).2) (env (ensure_running o s).2) = true.
Proof.
  unfold ensure_running. destruct (alive (pidfile s) (env s)) eqn:Ha; simpl.
  - exact Ha.
  - unfold alive. apply bool_decide_eq_true. simpl. set_solver.
Qed.

(** Every way an iteration can end. *)
Lemma tick_inv (o : TickEnv) (s : State) :
  (∃ s1, (fd_mtime s1 = fd_mtime s ∨ fd_mtime s1 = clock (env s1))
     ∧ pidfile s1 = pidfile s ∧ env s1 = at_check o s
     ∧ ∃ pre, tick o s = (pre ++ (ensure_running o s1).1, Running (ensure_running o s1).2)
              ∧ started pre = [] ∧ recorded pre = [] ∧ count is_spawn pre = 0%nat)
  ∨ (tick o s = ([TestNewer true; LoadServers 0; OpenFd (clock (at_check o s)); Stat None],
                 Exited 1 (at_check o s))
     ∧ newer_than (cluster_file (env (wait o s))) (fd_mtime s) = true
     ∧ load_status o = 0
     ∧ cluster_file (at_check o s) = None).
Proof.
  unfold at_check.
  destruct (newer_than (cluster_file (env (wait o s))) (fd_mtime s)) eqn:Hn.
  - destruct (decide (load_status o = 0)) as [Hst|Hst].
    + rewrite (tick_loaded o s Hn Hst). cbv zeta.
      destruct (cluster_file (env_steps (during_load o) _)) as [t|] eqn:Hf.
      * left.
        exists (mkState (env_steps (during_load o) (env (wait o s)))
                  (clock (env_steps (during_load o) (env (wait o s)))) (pidfile s)).
        split; [by right |].
        split; [done |]. split; [done |].
        by exists [TestNewer true; LoadServers 0;
                   OpenFd (clock (env_steps (during_load o) (env (wait o s))));
                   Stat (Some t)].
      * by right.
    + left. rewrite (tick_failed o s Hn Hst). cbv zeta.
      exists (mkState (env_steps (during_load o) (env (wait o s)))
                (fd_mtime s) (pidfile s)).
      split; [by left |].
      split; [done |]. split; [done |].
      by exists [TestNewer true; LoadServers (load_status o)].
  - left. rewrite (tick_unchanged o s Hn).
    exists (wait o s). split; [by left |]. split; [done |]. split; [done |].
    by exists [TestNewer false].
Qed.

(** X2. Every iteration that completes leaves the recorded process alive:
    either it was, or it has just been started. *)
Theorem tick_ends_alive (o : TickEnv) (s : State) (tr : list Action) (s' : State) :
  tick o s = (tr, Running s') →
  alive (pidfile s') (env s') = true ∧ pidfile s' ∈ procs (env s').
Proof.
  intros Ht.
  assert (Ha : alive (pidfile s') (env s') = true).
  { destruct (tick_inv o s) as [(s1 & _ & _ & _ & pre & Hp & _)|(Hx & _)];
      [| congruence].
    rewrite Hp in Ht. injection Ht as <- <-. apply ensure_running_ends_alive. }
  split; [exact Ha |]. unfold alive in Ha. by apply bool_decide_eq_true in Ha.
Qed.

Lemma tick_ends_alive_witness :
  alive (pidfile (mkState (mkWorld 25 None {[5102%positive]}) 10 5102%positive))
    (env (mkState (mkWorld 25 None {[5102%positive]}) 10 5102%positive)) = true
  ∧ pidfile (mkState (mkWorld 25 None {[5102%positive]}) 10 5102%positive)
    ∈ procs (env (mkState (mkWorld 25 None {[5102%positive]}) 10 5102%positive)).
Proof.
  apply (tick_ends_alive calm bare (tick calm bare).1
           (mkState (mkWorld 25 None {[5102%positive]}) 10 5102%positive)).
  vm_compute. reflexivity.
Defined.

Lemma count_spawn_ensure_running (o : TickEnv) (s : State) :
  count is_spawn (ensure_running o s).1
  = if alive (pidfile s) (env s) then 0%nat else 1%nat.
Proof. unfold ensure_running. by destruct (alive _ _). Qed.

Lemma count_app (f : Action → bool) (tr tr' : list Action) :
  count f (tr ++ tr') = (count f tr + count f tr')%nat.
Proof. unfold count. by rewrite List.filter_app, length_app. Qed.

Lemma started_elem (tr : list Action) (p : pid) : Spawn p ∈ tr ↔ p ∈ started tr.
Proof.
  unfold started. rewrite list_elem_of_omap. split.
  - intros H. by exists (Spawn p).
  - intros ([] & Hin & Heq); try done. by injection Heq as ->.
Qed.

(** X3. An iteration starts pgAdmin at most once, only under the id the
    system hands out, and only when the recorded id had no process at the
    moment of the check; while the recorded process is alive nothing is
    started. *)
Theorem restart_only_when_dead (o : TickEnv) (s : State) :
  (count is_spawn (tick o s).1 ≤ 1)%nat
  ∧ (∀ p : pid, Spawn p ∈ (tick o s).1 →
       p = next_pid o ∧ alive (pidfile s) (at_check o s) = false)
  ∧ (alive (pidfile s) (at_check o s) = true →
       count is_spawn (tick o s).1 = 0%nat ∧ started (tick o s).1 = []).
Proof.
  destruct (tick_inv o s)
    as [(s1 & _ & Hpid & Henv & pre & Ht & Hs & _ & Hc)|(Ht & _)].
  - rewrite Ht. cbn [fst].
    rewrite count_app, Hc, count_spawn_ensure_running, started_app, Hs, Hpid, Henv.
    unfold ensure_running. rewrite Hpid, Henv.
    destruct (alive (pidfile s) (at_check o s)); simpl.
    + split; [lia |]. split; [| done].
      intros p Hin%started_elem.
      rewrite started_app, Hs in Hin. simpl in Hin. by apply elem_of_nil in Hin.
    + split; [lia |]. split; [| done].
      intros p Hin%started_elem.
      rewrite started_app, Hs in Hin. simpl in Hin.
      by apply list_elem_of_singleton in Hin as ->.
  - rewrite Ht. cbn [fst]. split; [unfold count; simpl; lia |].
    split; [| done]. intros p Hin%started_elem. simpl in Hin.
    by apply elem_of_nil in Hin.
Qed.

Lemma restart_only_when_dead_witness :
  count is_spawn (tick calm settled).1 = 0%nat ∧ started (tick calm settled).1 = [].
Proof.
  apply (proj2 (proj2 (restart_only_when_dead calm settled))). reflexivity.
Defined.

(** *** A file that vanishes during a load *)

(** X4. When the load command succeeds on a file that was newer at the poll
    but the file is gone by the time [stat] runs, [stat] fails and, under
    [bash -e], the script ends there with status 1: the descriptor has been
    reopened, the process check of that iteration does not run, and none
    of the following iterations runs. *)
Theorem vanished_file_ends_script (o : TickEnv) (os : list TickEnv) (s : State) :
  newer_than (cluster_file (env (wait o s))) (fd_mtime s) = true →
  load_status o = 0 →
  cluster_file (env_steps (during_load o) (env (wait o s))) = None →
  ticks (o :: os) s
  = ([[TestNewer true; LoadServers 0;
       OpenFd (clock (env_steps (during_load o) (env (wait o s)))); Stat None]],
     Exited 1 (env_steps (during_load o) (env (wait o s)))).
Proof.
  intros Hn Hst Hf. cbn [ticks].
  rewrite (tick_loaded o s Hn Hst). cbv zeta. by rewrite Hf.
Qed.

Lemma vanished_file_ends_script_witness :
  ticks [mkTickEnv [Elapse 5; Kill 4821%positive] 0 [Replace None] 5102%positive;
         calm; calm] rewritten
  = ([[TestNewer true; LoadServers 0;
       OpenFd (clock (env_steps [Replace None]
                        (env (wait (mkTickEnv [Elapse 5; Kill 4821%positive] 0
                                      [Replace None] 5102%positive) rewritten))));
       Stat None]],
     Exited 1 (env_steps [Replace None]
                 (env (wait (mkTickEnv [Elapse 5; Kill 4821%positive] 0
                               [Replace None] 5102%positive) rewritten)))).
Proof.
  apply (vanished_file_ends_script
           (mkTickEnv [Elapse 5; Kill 4821%positive] 0 [Replace None] 5102%positive)
           [calm; calm] rewritten); reflexivity.
Defined.

(** *** The pid file follows the processes started *)

Lemma recorded_app (tr tr' : list Action) :
  recorded (tr ++ tr') = recorded tr ++ recorded tr'.
Proof. apply omap_app. Qed.

Lemma ensure_running_recorded (o : TickEnv) (s : State) :
  recorded (ensure_running o s).1 = started (ensure_running o s).1.
Proof. unfold ensure_running. by destruct (alive _ _). Qed.

Lemma tick_recorded (o : TickEnv) (s : State) :
  recorded (tick o s).1 = started (tick o s).1.
Proof.
  destruct (tick_inv o s) as [(s1 & _ & _ & _ & pre & -> & Hs & Hr & _)|(-> & _)];
    [| done].
  cbn [fst]. by rewrite recorded_app, started_app, Hs, Hr, ensure_running_recorded.
Qed.

Lemma ticks_recorded (os : list TickEnv) (s : State) :
  recorded (concat (ticks os s).1) = started (concat (ticks os s).1).
Proof.
  revert s. induction os as [|o os IH]; intros s; simpl; [done |].
  pose proof (tick_recorded o s) as Ht.
  destruct (tick o s) as [tr [s1|st w]]; simpl in *.
  - specialize (IH s1). destruct (ticks os s1) as [trs out]. simpl in *.
    by rewrite recorded_app, started_app, Ht, IH.
  - by rewrite !app_nil_r.
Qed.

(** X6. However a run goes and however it ends, the ids written to the pid
    file are exactly the ids of the processes started, in the same order:
    every start is recorded and nothing else is ever written. *)
Theorem every_start_is_recorded (b : BootEnv) (os : list TickEnv) (w : World) :
  recorded (monitor b os w).1 = started (monitor b os w).1.
Proof.
  unfold monitor, startScript, reloadScript.
  destruct (setup_status b =? 0); [| done].
  destruct (boot_load_status b =? 0); [| done].
  pose proof (ticks_recorded os
    (mkState (env_steps (during_boot_load b)
                (spawn (boot_pid b) (env_steps (during_setup b) w)))
       (clock (env_steps (during_boot_load b)
                 (spawn (boot_pid b) (env_steps (during_setup b) w))))
       (boot_pid b))) as H.
  destruct (ticks os _) as [trs out]. simpl in *. by rewrite H.
Qed.

(** *** Failures during start-up *)

Lemma procs_env_steps (es : list EnvEvent) (w : World) :
  procs (env_steps es w) ⊆ procs w.
Proof.
  revert w. induction es as [|e es IH]; intros w; simpl; [done |].
  etransitivity; [apply IH |]. destruct e; simpl; [done..|].
  apply subseteq_difference_l. done.
Qed.

Lemma spares_env_steps (p : pid) (es : list EnvEvent) (w : World) :
  forallb (spares p) es = true → p ∈ procs w → p ∈ procs (env_steps es w).
Proof.
  revert w. induction es as [|e es IH]; intros w H Hin; simpl in *; [done |].
  apply andb_prop in H as [He Hes]. apply IH; [done |].
  destruct e as [d| |m|q]; simpl in *; try done.
  apply negb_true_iff, Pos.eqb_neq in He. set_solver.
Qed.

(** X7. When the setup step fails the script exits with the status of the
    setup step, having started no process and run no load command. When
    the setup succeeds but the first load command fails, the script exits
    with the status of the load command although pgAdmin has been started
    and recorded: unless it died meanwhile, it is left running. *)
Theorem boot_failures (b : BootEnv) (os : list TickEnv) (w : World) :
  (setup_status b ≠ 0 →
   ∃ w', monitor b os w
         = ([Echo "Running pgAdmin4 Setup"; Setup (setup_status b)],
            Exited (setup_status b) w')
         ∧ procs w' ⊆ procs w)
  ∧ (setup_status b = 0 → boot_load_status b ≠ 0 →
     ∃ w', monitor b os w
           = ([Echo "Running pgAdmin4 Setup"; Setup 0; Echo "Starting pgAdmin4";
               Spawn (boot_pid b); WritePid (boot_pid b);
               LoadServers (boot_load_status b)],
              Exited (boot_load_status b) w')
           ∧ (forallb (spares (boot_pid b)) (during_boot_load b) = true →
              boot_pid b ∈ procs w')).
Proof.
  unfold monitor, startScript. split.
  - intros Hs%Z.eqb_neq. rewrite Hs. eexists. split; [done |].
    apply procs_env_steps.
  - intros Hs Hl%Z.eqb_neq. rewrite Hs, Hl. simpl. eexists. split; [done |].
    intros Hsp. apply spares_env_steps; [done |]. simpl. set_solver.
Qed.

Lemma boot_failures_witness :
  (∃ w', monitor (mkBootEnv 2 [Elapse 1] 4821%positive 0 []) [calm] fresh
         = ([Echo "Running pgAdmin4 Setup"; Setup 2], Exited 2 w')
         ∧ procs w' ⊆ procs fresh)
  ∧ (∃ w', monitor (mkBootEnv 0 [Elapse 1] 4821%positive 3 [Elapse 2]) [calm] fresh
           = ([Echo "Running pgAdmin4 Setup"; Setup 0; Echo "Starting pgAdmin4";
               Spawn 4821%positive; WritePid 4821%positive; LoadServers 3],
              Exited 3 w')
           ∧ (forallb (spares 4821%positive) [Elapse 2] = true →
              4821%positive ∈ procs w')).
Proof.
  split.
  - apply (proj1 (boot_failures (mkBootEnv 2 [Elapse 1] 4821%positive 0 []) [calm] fresh)).
    simpl. lia.
  - apply (proj2 (boot_failures (mkBootEnv 0 [Elapse 1] 4821%positive 3 [Elapse 2])
                    [calm] fresh)); [reflexivity | simpl; lia].
Defined.

(** *** One load per change *)

(** X8. After an iteration whose load command succeeded, if the file's
    stamp is not later than the moment the descriptor was reopened, the
    file is no longer newer than the watermark: however many iterations
    follow, none of them runs the load command again until the file is
    touched or the recorded process dies. *)
Theorem loaded_once_per_change
    (o : TickEnv) (s : State) (t : Z) (os : list TickEnv) :
  newer_than (cluster_file (env (wait o s))) (fd_mtime s) = true →
  load_status o = 0 →
  cluster_file (env_steps (during_load o) (env (wait o s))) = Some t →
  t ≤ clock (env_steps (during_load o) (env (wait o s))) →
  ∃ tr s',
    tick o s = (tr, Running s')
    ∧ count is_load tr = 1%nat
    ∧ newer_than (cluster_file (env s')) (fd_mtime s') = false
    ∧ (forallb (idle s') os = true →
       ∃ s'', ticks os s'
              = (replicate (length os) [TestNewer false; TestProc (pidfile s') true],
                 Running s'')
              ∧ fd_mtime s'' = fd_mtime s').
Proof.
  intros Hn Hst Hf Hle.
  pose proof (tick_count_load o s) as Hc. rewrite Hn in Hc.
  pose proof (tick_loaded o s Hn Hst) as Ht. cbv zeta in Ht. rewrite Hf in Ht.
  set (s1 := mkState _ _ _) in Ht.
  destruct (ensure_running_frame o s1) as (Hfd & _ & Hfile).
  pose proof (ensure_running_ends_alive o s1) as Ha.
  eexists _, (ensure_running o s1).2. split; [exact Ht |].
  rewrite Ht in Hc. split; [exact Hc |].
  assert (Hq : newer_than (cluster_file (env (ensure_running o s1).2))
                 (fd_mtime (ensure_running o s1).2) = false).
  { rewrite Hfd, Hfile. unfold s1. cbn [env fd_mtime]. rewrite Hf.
    by apply newer_than_older. }
  split; [exact Hq |].
  intros Hidle.
  destruct (ticks_quiescent os (ensure_running o s1).2) as (s'' & Hts & Hfd' & _);
    [apply quiescent_spec; by split | done |].
  by exists s''.
Qed.

Lemma loaded_once_per_change_witness :
  ∃ tr s',
    tick slow rewritten = (tr, Running s')
    ∧ count is_load tr = 1%nat
    ∧ newer_than (cluster_file (env s')) (fd_mtime s') = false
    ∧ (forallb (idle s') [calm; calm] = true →
       ∃ s'', ticks [calm; calm] s'
              = (replicate (length [calm; calm])
                   [TestNewer false; TestProc (pidfile s') true],
                 Running s'')
              ∧ fd_mtime s'' = fd_mtime s').
Proof.
  apply (loaded_once_per_change slow rewritten 15 [calm; calm]);
    [reflexivity | reflexivity | reflexivity | simpl; lia].
Defined.

(** X9. A file stamped later than the clock reading at which the
    descriptor is reopened is still newer than the watermark after a
    successful load, so the next iteration runs the load command again even
    though nothing touched the file. *)
Theorem future_stamp_reloads_again
    (o o' : TickEnv) (s : State) (t : Z) :
  newer_than (cluster_file (env (wait o s))) (fd_mtime s) = true →
  load_status o = 0 →
  cluster_file (env_steps (during_load o) (env (wait o s))) = Some t →
  clock (env_steps (during_load o) (env (wait o s))) < t →
  forallb keeps_file (during_wait o') = true →
  ∃ tr s',
    tick o s = (tr, Running s')
    ∧ fd_mtime s' < t
    ∧ cluster_file (env s') = Some t
    ∧ count is_load (tick o' s').1 = 1%nat.
Proof.
  intros Hn Hst Hf Hlt Hk.
  pose proof (tick_loaded o s Hn Hst) as Ht. cbv zeta in Ht. rewrite Hf in Ht.
  set (s1 := mkState _ _ _) in Ht.
  destruct (ensure_running_frame o s1) as (Hfd & _ & Hfile).
  eexists _, (ensure_running o s1).2. split; [exact Ht |].
  rewrite Hfd, Hfile. unfold s1 at 1 2. cbn [env fd_mtime].
  split; [exact Hlt |]. split; [exact Hf |].
  rewrite tick_count_load. unfold wait. cbn [env fd_mtime].
  rewrite keeps_file_steps, Hfile, Hfd by done. unfold s1. cbn [env fd_mtime].
  rewrite Hf. simpl. by rewrite bool_decide_eq_true_2.
Qed.

Lemma future_stamp_reloads_again_witness :
  ∃ tr s',
    tick (mkTickEnv [Replace (Some 100); Elapse 5] 0 [Elapse 1] 5102%positive) settled
    = (tr, Running s')
    ∧ fd_mtime s' < 100
    ∧ cluster_file (env s') = Some 100
    ∧ count is_load (tick calm s').1 = 1%nat.
Proof.
  apply (future_stamp_reloads_again
           (mkTickEnv [Replace (Some 100); Elapse 5] 0 [Elapse 1] 5102%positive)
           calm settled 100);
    [reflexivity | reflexivity | reflexivity | simpl; lia | reflexivity].
Defined.

(** *** Reopening follows loading *)

Lemma count_zero_elem (f : Action → bool) (tr : list Action) (a : Action) :
  count f tr = 0%nat → a ∈ tr → f a = false.
Proof.
  induction tr as [|x tr IH]; [by intros _ ?%elem_of_nil |].
  rewrite count_cons. intros Hc [->|Hin]%elem_of_cons.
  - destruct (f x); [simpl in Hc; lia | done].
  - apply IH; [lia | done].
Qed.

Lemma ensure_running_no_open (o : TickEnv) (s : State) (t : Z) :
  OpenFd t ∉ (ensure_running o s).1.
Proof.
  intros Hin. destruct (ensure_running_trace o s) as (_ & Ho & _).
  by apply (count_zero_elem is_open _ _ Ho) in Hin.
Qed.

(** X10. In every iteration the descriptor is reopened at most once and
    only after a load command that exited 0 in that same iteration; an
    iteration runs the load command at most once. *)
Theorem reopen_only_after_successful_load (o : TickEnv) (s : State) :
  (count is_open (tick o s).1 ≤ count is_load (tick o s).1 ≤ 1)%nat
  ∧ (∀ t : Z, OpenFd t ∈ (tick o s).1 →
       ∃ post, (tick o s).1 = TestNewer true :: LoadServers 0 :: OpenFd t :: post
               ∧ load_status o = 0
               ∧ t = clock (env_steps (during_load o) (env (wait o s)))).
Proof.
  destruct (newer_than (cluster_file (env (wait o s))) (fd_mtime s)) eqn:Hn.
  - destruct (decide (load_status o = 0)) as [Hst|Hst].
    + rewrite (tick_loaded o s Hn Hst). cbv zeta.
      destruct (cluster_file (env_steps (during_load o) _)) as [t0|]; cbn [fst].
      * set (s1 := mkState _ _ _).
        destruct (ensure_running_trace o s1) as (Hl & Ho & _).
        rewrite !count_cons, Hl, Ho. simpl. split; [lia |].
        intros t [[=]|[[=]|[[= ->]|[[=]|Hin]%elem_of_cons]%elem_of_cons]%elem_of_cons]%elem_of_cons.
        { by eexists. }
        by apply ensure_running_no_open in Hin.
      * split; [unfold count; simpl; lia |].
        intros t [[=]|[[=]|[[= ->]|[[=]|Hin%elem_of_nil]%elem_of_cons]%elem_of_cons]%elem_of_cons]%elem_of_cons;
          [by eexists | done].
    + rewrite (tick_failed o s Hn Hst). cbv zeta. cbn [fst].
      set (s1 := mkState _ _ _).
      destruct (ensure_running_trace o s1) as (Hl & Ho & _).
      rewrite !count_cons, Hl, Ho. simpl. split; [lia |].
      intros t [[=]|[[=]|Hin]%elem_of_cons]%elem_of_cons.
      by apply ensure_running_no_open in Hin.
  - rewrite (tick_unchanged o s Hn). cbn [fst].
    destruct (ensure_running_trace o (wait o s)) as (Hl & Ho & _).
    rewrite !count_cons, Hl, Ho. simpl. split; [lia |].
    intros t [[=]|Hin]%elem_of_cons.
    by apply ensure_running_no_open in Hin.
Qed.

Lemma reopen_only_after_successful_load_witness :
  ∃ post, (tick slow rewritten).1 = TestNewer true :: LoadServers 0 :: OpenFd 28 :: post
          ∧ load_status slow = 0
          ∧ 28 = clock (env_steps (during_load slow) (env (wait slow rewritten))).
Proof.
  apply (proj2 (reopen_only_after_successful_load slow rewritten) 28).
  do 2 apply list_elem_of_further. apply list_elem_of_here.
Defined.

(** *** The watermark and the trace *)

Lemma opened_app (tr tr' : list Action) :
  opened (tr ++ tr') = opened tr ++ opened tr'.
Proof. apply omap_app. Qed.

Lemma ensure_running_opened (o : TickEnv) (s : State) :
  opened (ensure_running o s).1 = [].
Proof. unfold ensure_running. by destruct (alive _ _). Qed.

(** An iteration either opens nothing and keeps the watermark, or opens the
    descriptor once, at what becomes the watermark. *)
Lemma tick_opened (o : TickEnv) (s : State) (tr : list Action) (s' : State) :
  tick o s = (tr, Running s') →
  (opened tr = [] ∧ fd_mtime s' = fd_mtime s) ∨ opened tr = [fd_mtime s'].
Proof.
  destruct (newer_than (cluster_file (env (wait o s))) (fd_mtime s)) eqn:Hn.
  - destruct (decide (load_status o = 0)) as [Hst|Hst].
    + rewrite (tick_loaded o s Hn Hst). cbv zeta.
      destruct (cluster_file (env_steps (during_load o) _)); [| done].
      set (s1 := mkState _ _ _). intros [= <- <-]. right.
      destruct (ensure_running_frame o s1) as (-> & _).
      change (?a :: ?b :: ?c :: ?d :: ?l) with ([a; b; c; d] ++ l).
      by rewrite opened_app, ensure_running_opened.
    + rewrite (tick_failed o s Hn Hst). cbv zeta.
      set (s1 := mkState _ _ _). intros [= <- <-]. left.
      destruct (ensure_running_frame o s1) as (-> & _).
      change (?a :: ?b :: ?l) with ([a; b] ++ l).
      by rewrite opened_app, ensure_running_opened.
  - rewrite (tick_unchanged o s Hn). intros [= <- <-]. left.
    destruct (ensure_running_frame o (wait o s)) as (-> & _).
    change (?a :: ?l) with ([a] ++ l).
    by rewrite opened_app, ensure_running_opened.
Qed.

Lemma ticks_opened (os : list TickEnv) (s : State)
    (trs : list (list Action)) (s' : State) (pre : list Z) :
  ticks os s = (trs, Running s') →
  last (pre ++ fd_mtime s :: opened (concat trs)) = Some (fd_mtime s').
Proof.
  revert s trs pre. induction os as [|o os IH]; intros s trs pre; simpl.
  - intros [= <- <-]. simpl. apply last_snoc.
  - destruct (tick o s) as [tr [s1|st w]] eqn:Ht; [| done].
    destruct (ticks os s1) as [trs1 out] eqn:Hts.
    intros [= <- ->]. simpl. rewrite opened_app.
    apply tick_opened in Ht as [[-> Hfd]| ->]; simpl.
    + rewrite <- Hfd. by apply IH.
    + change (pre ++ fd_mtime s :: fd_mtime s1 :: opened (concat trs1))
        with (pre ++ [fd_mtime s] ++ fd_mtime s1 :: opened (concat trs1)).
      rewrite app_assoc. by apply IH.
Qed.

(** X20. In every state the script reaches, the watermark is the clock
    reading of the most recent opening of the descriptor recorded in the
    trace: nothing else ever sets it. *)
Theorem watermark_is_last_opening
    (b : BootEnv) (os : list TickEnv) (w : World) (tr : list Action) (s : State) :
  monitor b os w = (tr, Running s) →
  last (opened tr) = Some (fd_mtime s).
Proof.
  unfold monitor, startScript, reloadScript.
  destruct (setup_status b =? 0); [| done].
  destruct (boot_load_status b =? 0); [| done].
  destruct (ticks os _) as [trs out] eqn:Hts.
  intros [= <- ->]. simpl.
  apply (ticks_opened os _ trs s [] Hts).
Qed.

Lemma watermark_is_last_opening_witness :
  last (opened (monitor boot [slow; calm] (mkWorld 7 (Some 30) ∅)).1) = Some 23.
Proof.
  apply (watermark_is_last_opening boot [slow; calm] (mkWorld 7 (Some 30) ∅)
           (monitor boot [slow; calm] (mkWorld 7 (Some 30) ∅)).1
           (mkState (mkWorld 23 (Some 30) table) 23 4821%positive)).
  vm_compute. reflexivity.
Defined.

End MonitorMore.

(** ** Properties of the system configuration script *)

Module StartupFacts.

Import Projection Startup Settings.

Section Script.

Variable settingsConfigMapKey : string.
Variable json_load : string → option Json.
Variable default_binary_paths : Json.

Abbreviation configSystem :=
  (configSystem settingsConfigMapKey json_load default_binary_paths).

Lemma update_globals_snoc (items : list (string * Json)) (kv : string * Json)
    (g : gmap string Json) :
  update_globals (items ++ [kv]) g
  = if fullmatch kv.1 then <[kv.1 := kv.2]> (update_globals items g)
    else update_globals items g.
Proof. unfold update_globals. by rewrite fold_left_app. Qed.

Lemma update_globals_cons (items : list (string * Json)) (kv : string * Json)
    (g : gmap string Json) :
  update_globals (kv :: items) g
  = update_globals items (if fullmatch kv.1 then <[kv.1 := kv.2]> g else g).
Proof. done. Qed.

(** What [globals().update] leaves under each name. *)
Lemma update_globals_lookup (items : list (string * Json)) (g : gmap string Json)
    (k : string) :
  update_globals items g !! k
  = if fullmatch k
    then match last_value k items with Some v => Some v | None => g !! k end
    else g !! k.
Proof.
  revert g. induction items as [|kv items IH]; intros g.
  - simpl. by destruct (fullmatch k).
  - rewrite update_globals_cons, IH. simpl.
    destruct (fullmatch k) eqn:Hk.
    + destruct (last_value k items); [done |].
      destruct (decide (kv.1 = k)) as [Heq|Hne].
      * rewrite Heq, Hk. apply lookup_insert_eq.
      * destruct (fullmatch kv.1); [by rewrite lookup_insert_ne | done].
    + destruct (fullmatch kv.1) eqn:Hkv; [| done].
      rewrite lookup_insert_ne; [done |]. intros Heq. rewrite Heq in Hkv.
      congruence.
Qed.

(** X11. The update from the settings file leaves every name that is not
    made solely of capital letters, digits and underscores exactly as it
    was before: the JSON can neither define nor overwrite such a name, for
    instance the script's own [os], [json] or [_f]. *)
Theorem update_keeps_other_names
    (items : list (string * Json)) (g : gmap string Json) (k : string) :
  fullmatch k = false →
  update_globals items g !! k = g !! k.
Proof. intros Hk. by rewrite update_globals_lookup, Hk. Qed.

(** X12. A JSON object's item whose key is a setting name takes effect,
    the last one when the key is repeated, and it overrides the default
    binary paths as well; only [LDAP_BIND_PASSWORD] yields to a mounted
    password file. *)
Theorem setting_from_json_applies
    (files : gmap string string) (g : gmap string Json) (text : string)
    (items : list (string * Json)) (k : string) (v : Json) :
  configSystem files = Some g →
  files !! (configMountPath +:+ "/" +:+ configFilePath settingsConfigMapKey) = Some text →
  json_load text = Some (JObject items) →
  fullmatch k = true →
  last_value k items = Some v →
  k ≠ "LDAP_BIND_PASSWORD" ∨ files !! ldapPasswordAbsolutePath = None →
  g !! k = Some v.
Proof.
  unfold Startup.configSystem. intros H Hf Hj Hk Hv Hl.
  rewrite Hf, Hj in H. injection H as <-.
  assert (H1 : update_globals items {[ "DEFAULT_BINARY_PATHS" := default_binary_paths ]}
               !! k = Some v) by (by rewrite update_globals_lookup, Hk, Hv).
  destruct (files !! ldapPasswordAbsolutePath) as [pw|]; [| done].
  destruct Hl as [Hne|]; [| done]. by rewrite lookup_insert_ne.
Qed.

(** The script fails exactly when the settings file is missing or is
    not valid JSON; a mounted password file does not change that. *)
Theorem config_fails_without_settings (files : gmap string string) :
  configSystem files = None
  ↔ match files !! (configMountPath +:+ "/" +:+ configFilePath settingsConfigMapKey) with
    | Some text => json_load text = None
    | None => True
    end.
Proof.
  unfold Startup.configSystem.
  destruct (files !! (_ +:+ "/" +:+ configFilePath _)) as [text|]; [| done].
  by destruct (json_load text).
Qed.

End Script.

Lemma update_keeps_other_names_witness :
  update_globals (("os", JNull) :: sample_settings)
    {[ "os" := JString "module"; "server_mode" := JString "kept" ]} !! "os"
  = ({[ "os" := JString "module"; "server_mode" := JString "kept" ]}
       : gmap string Json) !! "os".
Proof.
  apply (update_keeps_other_names (("os", JNull) :: sample_settings)
           {[ "os" := JString "module"; "server_mode" := JString "kept" ]} "os").
  reflexivity.
Defined.

Example update_keeps_lower_case :
  update_globals (("os", JNull) :: sample_settings)
    {[ "os" := JString "module"; "server_mode" := JString "kept" ]}
  = {[ "os" := JString "module"; "server_mode" := JString "kept";
       "SERVER_MODE" := JBool false;
       "LDAP_BIND_PASSWORD" := JString "from-configmap" ]}.
Proof. vm_compute. reflexivity. Qed.

Lemma setting_from_json_applies_witness :
  default ∅ sample_run !! "SERVER_MODE" = Some (JBool false).
Proof.
  apply (setting_from_json_applies "pgadmin-settings.json" sample_load
           (JString "/usr/pgsql-16/bin") sample_files (default ∅ sample_run)
           "settings" sample_settings "SERVER_MODE" (JBool false));
    try (vm_compute; reflexivity).
  left. done.
Defined.

(** The password of the Secret wins over the one of the ConfigMap. *)
Lemma ldap_secret_overrides_settings_witness :
  default ∅ sample_run !! "LDAP_BIND_PASSWORD" = Some (JString "from-secret").
Proof.
  apply (ProjectionFacts.ldap_secret_overrides_settings "pgadmin-settings.json"
           sample_load (JString "/usr/pgsql-16/bin") sample_files);
    vm_compute; reflexivity.
Defined.

End StartupFacts.

(** ** Properties of the pod *)

Module PodFacts.

Import Projection Pod.

Section Package.

Context {R S O : Type}.

Variables settingsConfigMapKey settingsClusterMapKey : string.
Variable pgAdminPort : Z.
Variables ContainerPGAdmin PortPGAdmin ContainerPGAdminStartup : string.
Variable StandalonePGAdminContainerImage : PGAdmin → string.
Variable StandalonePGAdminName : PGAdmin → string.
Variable RestrictedSecurityContext : S.
Variable SpecImagePullPolicy : PGAdmin → string.
Variable SpecResources : PGAdmin → R.

Abbreviation pod :=
  (pod (O := O) settingsConfigMapKey settingsClusterMapKey pgAdminPort
     ContainerPGAdmin PortPGAdmin ContainerPGAdminStartup
     StandalonePGAdminContainerImage StandalonePGAdminName
     RestrictedSecurityContext SpecImagePullPolicy SpecResources).

(** What [pod] returns when none of its arguments is nil. *)
Lemma pod_Some (pg : PGAdmin) (cm : ConfigMapObject) (out : PodSpec R S O)
    (claim : PersistentVolumeClaim_) :
  ∃ sources command spec,
    podConfigFiles settingsConfigMapKey settingsClusterMapKey (Some cm) pg = Some sources
    ∧ startupScript settingsClusterMapKey (Some pg) = Some command
    ∧ pod (Some pg) (Some cm) (Some out) (Some claim) = Some spec
    ∧ Volumes spec
      = [mkVolume configVolumeName
           (mkVolumeSource (Some (mkProjected sources)) None None);
         mkVolume dataVolumeName
           (mkVolumeSource None (Some (mkClaimSource (claimName claim) false)) None);
         mkVolume logVolumeName
           (mkVolumeSource None None (Some (mkEmptyDir StorageMediumMemory None)));
         mkVolume scriptVolumeName
           (mkVolumeSource None None
              (Some (mkEmptyDir StorageMediumMemory (Some 32768%Z))));
         mkVolume tempVolumeName
           (mkVolumeSource None None (Some (mkEmptyDir StorageMediumMemory None)))]
    ∧ (∃ c i, Containers spec = [c] ∧ InitContainers spec = [i]
         ∧ Command c = command
         ∧ Command i = startupCommand settingsConfigMapKey
         ∧ Env c
           = [mkEnvVar "PGADMIN_SETUP_EMAIL" (adminEmail pg) None;
              mkEnvVar "PGADMIN_SETUP_PASSWORD" EmptyString
                (Some (mkEnvVarSource
                   (Some (mkSecretKeySelector (mkRef (StandalonePGAdminName pg))
                            "password" None))));
              mkEnvVar "PGADMIN_LISTEN_PORT" (pretty pgAdminPort) None]
         ∧ VolumeMounts c
           = [mkVolumeMount configVolumeName configMountPath true;
              mkVolumeMount dataVolumeName "/var/lib/pgadmin" false;
              mkVolumeMount logVolumeName "/var/log/pgadmin" false;
              mkVolumeMount scriptVolumeName scriptMountPath true;
              mkVolumeMount tempVolumeName "/tmp" false]
         ∧ VolumeMounts i = [mkVolumeMount scriptVolumeName scriptMountPath false]
         ∧ Image i = Image c ∧ ImagePullPolicy i = ImagePullPolicy c
         ∧ Resources i = Resources c ∧ SecurityContext i = SecurityContext c)
    ∧ Others spec = Others out.
Proof.
  unfold Pod.pod, Projection.podConfigFiles. simpl.
  destruct (LDAPBindPassword (Config (Spec pg)));
    (eexists _, _, _; split; [reflexivity |]; split; [reflexivity |];
     split; [reflexivity |]; split; [reflexivity |]; split; [| reflexivity];
     eexists _, _; repeat split).
Qed.

Lemma pod_inv (a : option PGAdmin) (b : option ConfigMapObject)
    (c : option (PodSpec R S O)) (d : option PersistentVolumeClaim_)
    (spec : PodSpec R S O) :
  pod a b c d = Some spec →
  ∃ pg cm out claim, a = Some pg ∧ b = Some cm ∧ c = Some out ∧ d = Some claim.
Proof.
  unfold Pod.pod, Projection.podConfigFiles.
  destruct a as [pg|], b as [cm|], c as [out|], d as [claim|]; simpl;
    try done; try (by destruct (LDAPBindPassword (Config (Spec pg)))).
  intros _. by eexists _, _, _, _.
Qed.

(** X14. [pod] succeeds exactly when none of its four pointers is nil. *)
Theorem pod_needs_all_arguments (a : option PGAdmin) (b : option ConfigMapObject)
    (c : option (PodSpec R S O)) (d : option PersistentVolumeClaim_) :
  is_Some (pod a b c d) ↔ is_Some a ∧ is_Some b ∧ is_Some c ∧ is_Some d.
Proof.
  split.
  - intros [spec Hp].
    destruct (pod_inv a b c d spec Hp) as (pg & cm & out & claim & -> & -> & -> & ->).
    by repeat split.
  - intros ([pg ->] & [cm ->] & [out ->] & [claim ->]).
    destruct (pod_Some pg cm out claim) as (? & ? & spec & _ & _ & -> & _). done.
Qed.

(** X15. In the pod that [pod] builds the five volumes have distinct
    names, every volume mount of the container and of the init container
    names one of them, and no container mounts two volumes at the same
    path. *)
Theorem mounts_name_declared_volumes
    (a : option PGAdmin) (b : option ConfigMapObject)
    (c : option (PodSpec R S O)) (d : option PersistentVolumeClaim_)
    (spec : PodSpec R S O) :
  pod a b c d = Some spec →
  length (Volumes spec) = 5
  ∧ NoDup (volumeName <$> Volumes spec)
  ∧ (∀ ct m, ct ∈ Containers spec ++ InitContainers spec →
       m ∈ VolumeMounts ct →
       ∃ v, v ∈ Volumes spec ∧ volumeName v = mountName m)
  ∧ (∀ ct, ct ∈ Containers spec ++ InitContainers spec →
       NoDup (MountPath <$> VolumeMounts ct)).
Proof.
  intros Hp.
  destruct (pod_inv a b c d spec Hp) as (pg & cm & out & claim & -> & -> & -> & ->).
  destruct (pod_Some pg cm out claim)
    as (sources & command & spec' & _ & _ & Hp' & Hv & (ct & it & Hc & Hi & _ & _ & _ & Hm & Hmi & _) & _).
  rewrite Hp in Hp'. injection Hp' as <-.
  rewrite Hv, Hc, Hi. simpl. split; [done |].
  split; [apply (bool_decide_unpack _); by vm_compute |].
  split.
  - intros ct' m Hct Hin.
    assert (Hname : mountName m ∈ volumeName <$> Volumes spec).
    { rewrite Hv. simpl.
      apply elem_of_cons in Hct as [->|[->|[]%elem_of_nil]%elem_of_cons].
      - rewrite Hm in Hin.
        repeat (apply elem_of_cons in Hin as [->|Hin]);
          [apply (bool_decide_unpack _); by vm_compute.. |].
        by apply elem_of_nil in Hin.
      - rewrite Hmi in Hin. apply list_elem_of_singleton in Hin as ->.
        apply (bool_decide_unpack _). by vm_compute. }
    apply list_elem_of_fmap in Hname as (v & Heq & Hv'). rewrite Hv in Hv'. eauto.
  - intros ct' [->|[->|[]%elem_of_nil]%elem_of_cons]%elem_of_cons.
    + rewrite Hm. apply (bool_decide_unpack _). by vm_compute.
    + rewrite Hmi. apply (bool_decide_unpack _). by vm_compute.
Qed.

(** X16. [pod] replaces the volumes, the containers and the init containers
    of the pod specification it is given and leaves everything else as it
    was: the result does not depend on what those three lists held, and
    building the pod again over the result changes nothing. *)
Theorem pod_overwrites_and_is_idempotent
    (a : option PGAdmin) (b : option ConfigMapObject)
    (out : PodSpec R S O) (d : option PersistentVolumeClaim_)
    (spec : PodSpec R S O) :
  pod a b (Some out) d = Some spec →
  Others spec = Others out
  ∧ (∀ vs cs ics, pod a b (Some (mkPodSpec vs cs ics (Others out))) d = Some spec)
  ∧ pod a b (Some spec) d = Some spec.
Proof.
  intros Hp.
  assert (Hgen : ∀ out', Others out' = Others out → pod a b (Some out') d = Some spec).
  { intros out' Ho. revert Hp. unfold Pod.pod.
    destruct a as [pg|]; [| done]. simpl.
    destruct (podConfigFiles _ _ b pg); [| done]. simpl.
    destruct d; [| done]. simpl. by rewrite Ho. }
  assert (Ho : Others spec = Others out).
  { revert Hp. unfold Pod.pod.
    destruct a as [pg|]; [| done]. simpl.
    destruct (podConfigFiles _ _ b pg); [| done]. simpl.
    destruct d; [| done]. simpl. by intros [= <-]. }
  split; [exact Ho |]. split; [| by apply Hgen].
  intros vs cs ics. by apply Hgen.
Qed.

(** X17. The file the supervisor script watches, its first positional
    argument, is the file under which the pod mounts the cluster key of
    the operator's ConfigMap: the read-only mount path of the configuration
    volume followed by the path of that key in the projection of the
    ConfigMap handed to [pod], the one [podConfigFiles] puts right after
    the user's files; the load command loads the same file. *)
Theorem watched_file_is_projected_file
    (a : option PGAdmin) (b : option ConfigMapObject)
    (c : option (PodSpec R S O)) (d : option PersistentVolumeClaim_)
    (spec : PodSpec R S O) :
  pod a b c d = Some spec →
  ∃ pg cm ct wrapper watched m v projected cmp item,
    a = Some pg ∧ b = Some cm
    ∧ Containers spec = [ct]
    ∧ Command ct = ["bash"; "-ceu"; "--"; wrapper; "pgadmin"; watched]
    ∧ m ∈ VolumeMounts ct ∧ mountReadOnly m = true
    ∧ v ∈ Volumes spec ∧ volumeName v = mountName m
    ∧ Projected (volumeSource v) = Some projected
    ∧ podConfigFiles settingsConfigMapKey settingsClusterMapKey b pg
      = Some (Sources projected)
    ∧ Sources projected !! length (Files (Config (Spec pg)))
      = Some (mkVolumeProjection None (Some cmp))
    ∧ cmLocalObjectReference cmp = mkRef (cmName cm)
    ∧ item ∈ cmItems cmp ∧ Key item = settingsClusterMapKey
    ∧ watched = MountPath m +:+ "/" +:+ Path item
    ∧ loadServerCommand settingsClusterMapKey pg
      = "python3 ${PGADMIN_DIR}/setup.py --load-servers " +:+ watched
        +:+ " --user " +:+ adminEmail pg +:+ " --replace".
Proof.
  intros Hp.
  destruct (pod_inv a b c d spec Hp) as (pg & cm & out & claim & -> & -> & -> & ->).
  destruct (pod_Some pg cm out claim)
    as (sources & command & spec' & Hs & Hcmd & Hp' & Hv & (ct & it & Hc & _ & Hcc & _ & _ & Hm & _) & _).
  rewrite Hp in Hp'. injection Hp' as <-.
  pose proof Hs as Hs'.
  rewrite ProjectionFacts.podConfigFiles_eq in Hs'. injection Hs' as Hsrc.
  injection Hcmd as <-.
  exists pg, cm, ct.
  eexists _, _, (mkVolumeMount configVolumeName configMountPath true),
    _, (mkProjected sources), _,
    (mkKeyToPath settingsClusterMapKey (clusterFilePath settingsClusterMapKey)).
  split; [done |]. split; [done |]. split; [exact Hc |]. split; [exact Hcc |].
  split; [rewrite Hm; apply list_elem_of_here |]. split; [done |].
  split; [rewrite Hv; apply list_elem_of_here |]. split; [done |].
  split; [done |]. split; [exact Hs |].
  split.
  { cbn [Sources]. rewrite <- Hsrc.
    rewrite lookup_app_r by lia. rewrite Nat.sub_diag. reflexivity. }
  split; [done |].
  split; [cbn [cmItems]; apply list_elem_of_further, list_elem_of_here |].
  split; [done |]. split; [done |].
  unfold loadServerCommand. simpl. done.
Qed.

Lemma append_assoc (s1 s2 s3 : string) :
  (s1 +:+ s2) +:+ s3 = s1 +:+ s2 +:+ s3.
Proof.
  induction s1 as [|c s1 IH]; [done |].
  change (String c ((s1 +:+ s2) +:+ s3) = String c (s1 +:+ s2 +:+ s3)).
  by rewrite IH.
Qed.

Lemma ends_here (x suffix : string) :
  ∃ pre, x +:+ suffix = pre +:+ x +:+ suffix.
Proof. by exists EmptyString. Qed.

Lemma ends_skip (x suffix p s : string) :
  (∃ pre, s = pre +:+ x +:+ suffix) → ∃ pre, p +:+ s = pre +:+ x +:+ suffix.
Proof. intros (pre & ->). exists (p +:+ pre). by rewrite append_assoc. Qed.

Lemma tail_here (D : string) : ∃ t, D = t +:+ D.
Proof. by exists EmptyString. Qed.

Lemma tail_skip (D p s : string) :
  (∃ t, s = t +:+ D) → ∃ t, p +:+ s = t +:+ D.
Proof. intros (t & ->). exists (p +:+ t). by rewrite append_assoc. Qed.

Lemma inner_here (B L C D s : string) :
  (∃ t, s = t +:+ D) →
  ∃ h t, B +:+ L +:+ C +:+ s = h +:+ B +:+ L +:+ C +:+ t +:+ D.
Proof. intros (t & ->). by exists EmptyString, t. Qed.

Lemma inner_skip (B L C D p s : string) :
  (∃ h t, s = h +:+ B +:+ L +:+ C +:+ t +:+ D) →
  ∃ h t, p +:+ s = h +:+ B +:+ L +:+ C +:+ t +:+ D.
Proof.
  intros (h & t & ->). exists (p +:+ h), t. by rewrite append_assoc.
Qed.

Lemma inner_strip (A B L C D s : string) :
  (∃ h t, s = h +:+ B +:+ L +:+ C +:+ t +:+ D) →
  ∃ h t, A +:+ s = A +:+ h +:+ B +:+ L +:+ C +:+ t +:+ D.
Proof. intros (h & t & ->). by exists h, t. Qed.

(** X18. The identity the load command gives to [--user] is the value of
    the [PGADMIN_SETUP_EMAIL] variable of the container. The script the
    container runs is the start-up text followed by the loop text, and
    that very load command stands once in each: in the start-up text as
    the last command, after pgAdmin has been started and its id recorded;
    in the loop text between [while] and [done], as the right operand of
    the [&&] in the condition of the first [if], before the [then] branch
    that reopens the descriptor. *)
Theorem load_user_is_setup_email
    (a : option PGAdmin) (b : option ConfigMapObject)
    (c : option (PodSpec R S O)) (d : option PersistentVolumeClaim_)
    (spec : PodSpec R S O) :
  pod a b c d = Some spec →
  ∃ pg ct email load wrapper,
    a = Some pg
    ∧ Containers spec = [ct]
    ∧ mkEnvVar "PGADMIN_SETUP_EMAIL" email None ∈ Env ct
    ∧ email = "admin@" +:+ pgName pg +:+ "." +:+ pgNamespace pg +:+ ".svc"
    ∧ load = "python3 ${PGADMIN_DIR}/setup.py --load-servers "
             +:+ clusterFile settingsClusterMapKey
             +:+ " --user " +:+ email +:+ " --replace"
    ∧ Command ct !! 3%nat = Some wrapper
    ∧ (∃ tail,
         wrapper = "monitor() {" +:+ startScriptText settingsClusterMapKey pg
                   +:+ reloadScriptText settingsClusterMapKey pg +:+ tail)
    ∧ (∃ h,
         startScriptText settingsClusterMapKey pg
         = h +:+ "
PGADMIN4_PIDFILE=/tmp/pgadmin4.pid
pgadmin4 &
echo $! > $PGADMIN4_PIDFILE

" +:+ load +:+ "
")
    ∧ (∃ h t,
         reloadScriptText settingsClusterMapKey pg
         = "
exec {fd}<> <(:)
while read -r -t 5 -u " +:+ h +:+ " ] && " +:+ load +:+ "
	then
		exec {fd}>&- && exec {fd}<> <(:)
		stat --format='Loaded shared servers dated %y' " +:+ t +:+ "
	fi
done
").
Proof.
  intros Hp.
  destruct (pod_inv a b c d spec Hp) as (pg & cm & out & claim & -> & -> & -> & ->).
  destruct (pod_Some pg cm out claim)
    as (sources & command & spec' & _ & Hcmd & Hp' & _ & (ct & it & Hc & _ & Hcc & _ & He & _) & _).
  rewrite Hp in Hp'. injection Hp' as <-. injection Hcmd as <-.
  exists pg, ct, (adminEmail pg), (loadServerCommand settingsClusterMapKey pg).
  eexists.
  split; [done |]. split; [exact Hc |].
  split; [rewrite He; apply list_elem_of_here |].
  split; [done |]. split; [done |]. split; [by rewrite Hcc |].
  split; [by eexists |].
  split.
  - unfold startScriptText.
    repeat first [ apply (ends_here "
PGADMIN4_PIDFILE=/tmp/pgadmin4.pid
pgadmin4 &
echo $! > $PGADMIN4_PIDFILE

") | apply ends_skip ].
  - unfold reloadScriptText.
    apply inner_strip.
    repeat first [ apply inner_here | apply inner_skip ].
    repeat first [ apply tail_here | apply tail_skip ].
Qed.

(** X19. The init container runs the image of the pgAdmin container with
    the same pull policy, resources and security context; it mounts nothing
    but the script volume, writable, and its script writes
    [config_system.py] directly under that mount path, where the pgAdmin
    container mounts the same volume read-only. *)
Theorem init_writes_where_pgadmin_reads
    (a : option PGAdmin) (b : option ConfigMapObject)
    (c : option (PodSpec R S O)) (d : option PersistentVolumeClaim_)
    (spec : PodSpec R S O) :
  pod a b c d = Some spec →
  ∃ ct it mi mc script text,
    Containers spec = [ct] ∧ InitContainers spec = [it]
    ∧ Image it = Image ct ∧ ImagePullPolicy it = ImagePullPolicy ct
    ∧ Resources it = Resources ct ∧ SecurityContext it = SecurityContext ct
    ∧ VolumeMounts it = [mi] ∧ mountReadOnly mi = false
    ∧ mc ∈ VolumeMounts ct ∧ mountName mc = mountName mi
    ∧ MountPath mc = MountPath mi ∧ mountReadOnly mc = true
    ∧ Command it = ["bash"; "-ceu"; "--"; script; "startup"; text]
    ∧ ∃ pre, script = pre +:+ " > " +:+ MountPath mi +:+ "/config_system.py)".
Proof.
  intros Hp.
  destruct (pod_inv a b c d spec Hp) as (pg & cm & out & claim & -> & -> & -> & ->).
  destruct (pod_Some pg cm out claim)
    as (sources & command & spec' & _ & _ & Hp' & _
        & (ct & it & Hc & Hi & _ & Hci & _ & Hm & Hmi & H1 & H2 & H3 & H4) & _).
  rewrite Hp in Hp'. injection Hp' as <-.
  exists ct, it, (mkVolumeMount scriptVolumeName scriptMountPath false),
    (mkVolumeMount scriptVolumeName scriptMountPath true).
  eexists _, _.
  repeat (split; [done |]).
  split; [rewrite Hm; do 3 apply list_elem_of_further; apply list_elem_of_here |].
  repeat (split; [done |]).
  split; [rewrite Hci; reflexivity |].
  cbn [MountPath]. rewrite ?append_assoc.
  repeat first [ apply (ends_here " > ") | apply ends_skip ].
Qed.

Lemma pod_ports (pg : PGAdmin) (cm : ConfigMapObject) (out : PodSpec R S O)
    (claim : PersistentVolumeClaim_) :
  ∃ spec ct,
    pod (Some pg) (Some cm) (Some out) (Some claim) = Some spec
    ∧ Containers spec = [ct]
    ∧ Ports ct = [mkContainerPort PortPGAdmin pgAdminPort ProtocolTCP]
    ∧ mkEnvVar "PGADMIN_LISTEN_PORT" (pretty pgAdminPort) None ∈ Env ct.
Proof.
  unfold Pod.pod, Projection.podConfigFiles. simpl.
  destruct (LDAPBindPassword (Config (Spec pg)));
    (eexists _, _; split; [reflexivity |]; split; [reflexivity |];
     split; [reflexivity |]; simpl;
     do 2 apply list_elem_of_further; apply list_elem_of_here).
Qed.

(** X21. The pgAdmin container exposes exactly one port, over TCP, and the
    port pgAdmin is told to listen on through [PGADMIN_LISTEN_PORT] is the
    decimal rendering of that same port. *)
Theorem listen_port_is_container_port
    (a : option PGAdmin) (b : option ConfigMapObject)
    (c : option (PodSpec R S O)) (d : option PersistentVolumeClaim_)
    (spec : PodSpec R S O) :
  pod a b c d = Some spec →
  ∃ ct p,
    Containers spec = [ct] ∧ Ports ct = [p]
    ∧ containerPort p = pgAdminPort ∧ Protocol p = "TCP"
    ∧ mkEnvVar "PGADMIN_LISTEN_PORT" (pretty (containerPort p)) None ∈ Env ct.
Proof.
  intros Hp.
  destruct (pod_inv a b c d spec Hp) as (pg & cm & out & claim & -> & -> & -> & ->).
  destruct (pod_ports pg cm out claim) as (spec' & ct & Hp' & Hc & Hports & He).
  rewrite Hp in Hp'. injection Hp' as <-.
  by exists ct, (mkContainerPort PortPGAdmin pgAdminPort ProtocolTCP).
Qed.

End Package.

Lemma listen_port_is_container_port_witness :
  ∃ ct p,
    Containers Sample.built = [ct] ∧ Ports ct = [p]
    ∧ containerPort p = 5050%Z ∧ Protocol p = "TCP"
    ∧ mkEnvVar "PGADMIN_LISTEN_PORT" (pretty (containerPort p)) None ∈ Env ct.
Proof.
  apply (listen_port_is_container_port "pgadmin-settings.json" "pgadmin-shared-clusters.json" 5050
           "pgadmin" "pgadmin" "pgadmin-startup"
           (λ _, "registry/pgadmin:8") (λ pg, pgName pg +:+ "-pgadmin")
           tt (λ _, "IfNotPresent") (λ _, tt)
           (Some Sample.pgadmin) (Some Sample.configmap) (Some Sample.stale)
           (Some Sample.claim)).
  vm_compute. reflexivity.
Defined.

Example listen_port_text :
  (λ ct : Container unit unit, Value <$> Env ct !! 2) <$> Containers Sample.built
  = [Some "5050"].
Proof. vm_compute. reflexivity. Qed.

Lemma pod_needs_all_arguments_witness :
  is_Some (Sample.build (Some Sample.stale)) ∧ ¬ is_Some (Sample.build None).
Proof.
  split.
  - apply (proj2 (pod_needs_all_arguments "pgadmin-settings.json" "pgadmin-shared-clusters.json" 5050
           "pgadmin" "pgadmin" "pgadmin-startup"
           (λ _, "registry/pgadmin:8") (λ pg, pgName pg +:+ "-pgadmin")
           tt (λ _, "IfNotPresent") (λ _, tt)
             (Some Sample.pgadmin) (Some Sample.configmap) (Some Sample.stale)
             (Some Sample.claim))).
    repeat split; by eexists.
  - intros H.
    apply (proj1 (pod_needs_all_arguments (O := string) "pgadmin-settings.json" "pgadmin-shared-clusters.json" 5050
           "pgadmin" "pgadmin" "pgadmin-startup"
           (λ _, "registry/pgadmin:8") (λ pg, pgName pg +:+ "-pgadmin")
           tt (λ _, "IfNotPresent") (λ _, tt)
             (Some Sample.pgadmin) (Some Sample.configmap) None
             (Some Sample.claim))) in H.
    destruct H as (_ & _ & [? [=]] & _).
Defined.

Lemma mounts_name_declared_volumes_witness :
  length (Volumes Sample.built) = 5
  ∧ NoDup (volumeName <$> Volumes Sample.built)
  ∧ (∀ ct m, ct ∈ Containers Sample.built ++ InitContainers Sample.built →
       m ∈ VolumeMounts ct →
       ∃ v, v ∈ Volumes Sample.built ∧ volumeName v = mountName m)
  ∧ (∀ ct, ct ∈ Containers Sample.built ++ InitContainers Sample.built →
       NoDup (MountPath <$> VolumeMounts ct)).
Proof.
  apply (mounts_name_declared_volumes "pgadmin-settings.json" "pgadmin-shared-clusters.json" 5050
           "pgadmin" "pgadmin" "pgadmin-startup"
           (λ _, "registry/pgadmin:8") (λ pg, pgName pg +:+ "-pgadmin")
           tt (λ _, "IfNotPresent") (λ _, tt)
           (Some Sample.pgadmin) (Some Sample.configmap) (Some Sample.stale)
           (Some Sample.claim)).
  vm_compute. reflexivity.
Defined.

Lemma pod_overwrites_and_is_idempotent_witness :
  Others Sample.built = "service-account"
  ∧ (∀ vs cs ics,
       Sample.build (Some (mkPodSpec vs cs ics "service-account")) = Some Sample.built)
  ∧ Sample.build (Some Sample.built) = Some Sample.built.
Proof.
  apply (pod_overwrites_and_is_idempotent "pgadmin-settings.json" "pgadmin-shared-clusters.json" 5050
           "pgadmin" "pgadmin" "pgadmin-startup"
           (λ _, "registry/pgadmin:8") (λ pg, pgName pg +:+ "-pgadmin")
           tt (λ _, "IfNotPresent") (λ _, tt)
           (Some Sample.pgadmin) (Some Sample.configmap) Sample.stale
           (Some Sample.claim)).
  vm_compute. reflexivity.
Defined.

Lemma watched_file_is_projected_file_witness :
  ∃ pg cm ct wrapper watched m v projected cmp item,
    Some Sample.pgadmin = Some pg ∧ Some Sample.configmap = Some cm
    ∧ Containers Sample.built = [ct]
    ∧ Command ct = ["bash"; "-ceu"; "--"; wrapper; "pgadmin"; watched]
    ∧ m ∈ VolumeMounts ct ∧ mountReadOnly m = true
    ∧ v ∈ Volumes Sample.built ∧ volumeName v = mountName m
    ∧ Projected (volumeSource v) = Some projected
    ∧ podConfigFiles "pgadmin-settings.json" "pgadmin-shared-clusters.json"
        (Some Sample.configmap) pg
      = Some (Sources projected)
    ∧ Sources projected !! length (Files (Config (Spec pg)))
      = Some (mkVolumeProjection None (Some cmp))
    ∧ cmLocalObjectReference cmp = mkRef (cmName cm)
    ∧ item ∈ cmItems cmp ∧ Key item = "pgadmin-shared-clusters.json"
    ∧ watched = MountPath m +:+ "/" +:+ Path item
    ∧ loadServerCommand "pgadmin-shared-clusters.json" pg
      = "python3 ${PGADMIN_DIR}/setup.py --load-servers " +:+ watched
        +:+ " --user " +:+ adminEmail pg +:+ " --replace".
Proof.
  apply (watched_file_is_projected_file "pgadmin-settings.json" "pgadmin-shared-clusters.json" 5050
           "pgadmin" "pgadmin" "pgadmin-startup"
           (λ _, "registry/pgadmin:8") (λ pg, pgName pg +:+ "-pgadmin")
           tt (λ _, "IfNotPresent") (λ _, tt)
           (Some Sample.pgadmin) (Some Sample.configmap) (Some Sample.stale)
           (Some Sample.claim)).
  vm_compute. reflexivity.
Defined.

Lemma load_user_is_setup_email_witness :
  ∃ pg ct email load wrapper,
    Some Sample.pgadmin = Some pg
    ∧ Containers Sample.built = [ct]
    ∧ mkEnvVar "PGADMIN_SETUP_EMAIL" email None ∈ Env ct
    ∧ email = "admin@" +:+ pgName pg +:+ "." +:+ pgNamespace pg +:+ ".svc"
    ∧ load = "python3 ${PGADMIN_DIR}/setup.py --load-servers "
             +:+ clusterFile "pgadmin-shared-clusters.json"
             +:+ " --user " +:+ email +:+ " --replace"
    ∧ Command ct !! 3%nat = Some wrapper
    ∧ (∃ tail,
         wrapper = "monitor() {" +:+ startScriptText "pgadmin-shared-clusters.json" pg
                   +:+ reloadScriptText "pgadmin-shared-clusters.json" pg +:+ tail)
    ∧ (∃ h,
         startScriptText "pgadmin-shared-clusters.json" pg
         = h +:+ "
PGADMIN4_PIDFILE=/tmp/pgadmin4.pid
pgadmin4 &
echo $! > $PGADMIN4_PIDFILE

" +:+ load +:+ "
")
    ∧ (∃ h t,
         reloadScriptText "pgadmin-shared-clusters.json" pg
         = "
exec {fd}<> <(:)
while read -r -t 5 -u " +:+ h +:+ " ] && " +:+ load +:+ "
	then
		exec {fd}>&- && exec {fd}<> <(:)
		stat --format='Loaded shared servers dated %y' " +:+ t +:+ "
	fi
done
").
Proof.
  apply (load_user_is_setup_email "pgadmin-settings.json" "pgadmin-shared-clusters.json" 5050
           "pgadmin" "pgadmin" "pgadmin-startup"
           (λ _, "registry/pgadmin:8") (λ pg, pgName pg +:+ "-pgadmin")
           tt (λ _, "IfNotPresent") (λ _, tt)
           (Some Sample.pgadmin) (Some Sample.configmap) (Some Sample.stale)
           (Some Sample.claim)).
  vm_compute. reflexivity.
Defined.

Lemma init_writes_where_pgadmin_reads_witness :
  ∃ ct it mi mc script text,
    Containers Sample.built = [ct] ∧ InitContainers Sample.built = [it]
    ∧ Image it = Image ct ∧ ImagePullPolicy it = ImagePullPolicy ct
    ∧ Resources it = Resources ct ∧ SecurityContext it = SecurityContext ct
    ∧ VolumeMounts it = [mi] ∧ mountReadOnly mi = false
    ∧ mc ∈ VolumeMounts ct ∧ mountName mc = mountName mi
    ∧ MountPath mc = MountPath mi ∧ mountReadOnly mc = true
    ∧ Command it = ["bash"; "-ceu"; "--"; script; "startup"; text]
    ∧ ∃ pre, script = pre +:+ " > " +:+ MountPath mi +:+ "/config_system.py)".
Proof.
  apply (init_writes_where_pgadmin_reads "pgadmin-settings.json" "pgadmin-shared-clusters.json" 5050
           "pgadmin" "pgadmin" "pgadmin-startup"
           (λ _, "registry/pgadmin:8") (λ pg, pgName pg +:+ "-pgadmin")
           tt (λ _, "IfNotPresent") (λ _, tt)
           (Some Sample.pgadmin) (Some Sample.configmap) (Some Sample.stale)
           (Some Sample.claim)).
  vm_compute. reflexivity.
Defined.

End PodFacts.
